(** * openai.hpp: a shallow embedding of the OpenAI C++ client

    The header [include/openai/openai.hpp] wraps libcurl and nlohmann/json.
    Both libraries are outside the repository: they enter the model as
    interfaces ([CurlLib], [JsonLib]) and every theorem holds for each of
    their implementations.  The code of the header itself (the transport
    [Session], the [OpenAI] facade, the category wrappers and the
    [configure]/[instance] singleton) is translated function by function.

    Strings are [std::string] values; libcurl receives their [c_str()] view,
    which is the same text for strings without an embedded NUL. *)

From Stdlib Require Import String Ascii List Bool ZArith Lia.
Import ListNotations.
Open Scope string_scope.

(** ** Effects: mutable object state, the process environment, exceptions *)

(** A call either returns a value or leaves through a C++ exception, of
    which the model keeps [what()]. *)
Inductive Outcome (A : Type) : Type :=
| Returned (a : A)
| Raised (what : string).
Arguments Returned {A} a.
Arguments Raised {A} what.

(** [HttpMethod]: the request kind a curl easy handle is set to. *)
Inductive HttpMethod : Type := HTTP_GET | HTTP_POST.

(** [CURLcode] is libcurl's result enum; [CURLE_OK] is its zero. *)
Definition CURLcode : Type := Z.
Definition CURLE_OK : CURLcode := 0%Z.

(** The options of a curl easy handle that the header sets.
    [CURLOPT_WRITEFUNCTION], [CURLOPT_WRITEDATA] and [CURLOPT_HEADERDATA]
    only say where the answer is stored; they appear in [Session.makeRequest]
    as the [received] text becoming [response_string]. *)
Record CURL : Type := mkCURL {
  CURLOPT_PROXY      : option string;
  CURLOPT_POSTFIELDS : option string;
  http_method        : HttpMethod;
  CURLOPT_HTTPHEADER : list string;
  CURLOPT_URL        : option string
}.

(** What is outside the program: the two standard streams (one entry per
    output statement) and the transfers performed so far, each one as the
    configuration of the handle [curl_easy_perform] ran with. *)
Record Env : Type := mkEnv {
  cerr      : list string;
  cout      : list string;
  performed : list CURL
}.

(** What one [curl_easy_perform] does: its result code and the bytes it
    passed to the write callback. *)
Record Transfer : Type := mkTransfer {
  result   : CURLcode;
  received : string
}.

(** State [S] is the object a method runs on.  An exception keeps the state
    and the environment reached when it was thrown. *)
Definition M (S A : Type) : Type := S -> Env -> Outcome A * S * Env.

Definition ret {S A : Type} (a : A) : M S A :=
  fun s e => (Returned a, s, e).

Definition bind {S A B : Type} (m : M S A) (k : A -> M S B) : M S B :=
  fun s e =>
    match m s e with
    | (Returned a, s', e') => k a s' e'
    | (Raised w, s', e') => (Raised w, s', e')
    end.

Definition throw {S A : Type} (w : string) : M S A :=
  fun s e => (Raised w, s, e).

Definition catch {S A : Type} (m : M S A) (h : string -> M S A) : M S A :=
  fun s e =>
    match m s e with
    | (Returned a, s', e') => (Returned a, s', e')
    | (Raised w, s', e') => h w s' e'
    end.

Definition gets {S A : Type} (f : S -> A) : M S A :=
  fun s e => (Returned (f s), s, e).

Definition modify {S : Type} (f : S -> S) : M S unit :=
  fun s e => (Returned tt, f s, e).

Definition when {S : Type} (b : bool) (m : M S unit) : M S unit :=
  if b then m else ret tt.

(** Runs a method of a member object (or of the object a reference
    designates) inside the enclosing object. *)
Definition zoom {S T A : Type} (get : T -> S) (set : S -> T -> T) (m : M S A)
  : M T A :=
  fun t e => let '(r, s', e') := m (get t) e in (r, set s' t, e').

Declare Scope cpp_scope.
Delimit Scope cpp_scope with cpp.
Notation "x <- m ;; k" := (bind m (fun x => k))
  (at level 61, m at next level, right associativity) : cpp_scope.
Notation "m ;; k" := (bind m (fun _ => k))
  (at level 61, right associativity) : cpp_scope.
Open Scope cpp_scope.

Definition nl : string := String (ascii_of_nat 10) EmptyString.

(** [std::cerr << ...] and [std::cout << ...], one statement at a time. *)
Definition to_cerr {S : Type} (text : string) : M S unit :=
  fun s e => (Returned tt, s,
              mkEnv (cerr e ++ [text]) (cout e) (performed e)).

Definition to_cout {S : Type} (text : string) : M S unit :=
  fun s e => (Returned tt, s,
              mkEnv (cerr e) (cout e ++ [text]) (performed e)).

(** [std::string::empty]. *)
Definition empty (s : string) : bool :=
  match s with EmptyString => true | String _ _ => false end.

(** ** The libraries the header is written against *)

(** libcurl: the text of a result code. *)
Class CurlLib : Type := {
  curl_easy_strerror : CURLcode -> string
}.

(** nlohmann/json.  [Json_parse] raises [parse_error] on text that is not
    JSON; [Json_count] is [count(key)] (0 on anything but an object);
    [Json_index] is the const [operator[]]; [Json_dump] is [dump(indent)],
    whose default indent is -1. *)
Class JsonLib : Type := {
  Json       : Type;
  Json_null  : Json;
  Json_parse : string -> Outcome Json;
  Json_count : Json -> string -> nat;
  Json_index : Json -> string -> Json;
  Json_dump  : Json -> Z -> string
}.

(** The preprocessor switches of the header. *)
Class BuildFlags : Type := {
  OPENAI_VERBOSE_OUTPUT   : bool;
  SLACKING_VERBOSE_OUTPUT : bool
}.

(** ** libcurl's option setters, as far as the header uses them *)

Definition curl_easy_init : CURL := mkCURL None None HTTP_GET [] None.

Definition setopt_PROXY (p : string) (c : CURL) : CURL :=
  mkCURL (Some p) (CURLOPT_POSTFIELDS c) (http_method c)
         (CURLOPT_HTTPHEADER c) (CURLOPT_URL c).

(** [CURLOPT_POSTFIELDSIZE] followed by [CURLOPT_POSTFIELDS]: the body is
    the [data.length()] bytes at [data.data()], and the handle turns to
    POST. *)
Definition setopt_POSTFIELDS (data : string) (c : CURL) : CURL :=
  mkCURL (CURLOPT_PROXY c) (Some data) HTTP_POST
         (CURLOPT_HTTPHEADER c) (CURLOPT_URL c).

(** [CURLOPT_HTTPGET 1], [CURLOPT_POST 0], [CURLOPT_NOBODY 0]. *)
Definition setopt_HTTPGET (c : CURL) : CURL :=
  mkCURL (CURLOPT_PROXY c) (CURLOPT_POSTFIELDS c) HTTP_GET
         (CURLOPT_HTTPHEADER c) (CURLOPT_URL c).

Definition setopt_HTTPHEADER (h : list string) (c : CURL) : CURL :=
  mkCURL (CURLOPT_PROXY c) (CURLOPT_POSTFIELDS c) (http_method c)
         h (CURLOPT_URL c).

Definition setopt_URL (u : string) (c : CURL) : CURL :=
  mkCURL (CURLOPT_PROXY c) (CURLOPT_POSTFIELDS c) (http_method c)
         (CURLOPT_HTTPHEADER c) (Some u).

(** ** [struct Response] *)

Record Response : Type := mkResponse {
  text          : string;
  is_error      : bool;
  error_message : string
}.

(** ** [class Session]

    [curl_] is the handle [curl_easy_init] gave the constructor.  The header
    tests it against null in [setProxyUrl], [setBody] and [get]; the model
    is of a session whose handle exists, the only one that can issue a
    request.  [mutex_request_] has no field here: within one thread the
    [lock_guard] of [makeRequest] is taken and released inside the call.
    The threads that contend for it are modelled in [Concurrent]. *)

Module Session.

Record t : Type := mk {
  curl_            : CURL;
  res_             : option CURLcode;   (* indeterminate until a request *)
  url_             : string;
  proxy_url_       : string;
  token_           : string;
  organization_    : string;
  throw_exception_ : bool
}.

Definition with_curl (f : CURL -> CURL) (s : t) : t :=
  mk (f (curl_ s)) (res_ s) (url_ s) (proxy_url_ s) (token_ s)
     (organization_ s) (throw_exception_ s).

Definition setUrl (url : string) : M t unit :=
  modify (fun s => mk (curl_ s) (res_ s) url (proxy_url_ s) (token_ s)
                      (organization_ s) (throw_exception_ s)).

Definition setToken (token organization : string) : M t unit :=
  modify (fun s => mk (curl_ s) (res_ s) (url_ s) (proxy_url_ s) token
                      organization (throw_exception_ s)).

Definition setProxyUrl (url : string) : M t unit :=
  modify (fun s => mk (setopt_PROXY url (curl_ s)) (res_ s) (url_ s) url
                      (token_ s) (organization_ s) (throw_exception_ s)).

Definition setBody (data : string) : M t unit :=
  modify (with_curl (setopt_POSTFIELDS data)).

(** [Session(bool throw_exception)] *)
Definition new (throw_exception : bool) : t :=
  mk curl_easy_init None "" "" "" "" throw_exception.

(** [Session(bool throw_exception, std::string proxy_url)] *)
Definition new_proxy (throw_exception : bool) (proxy_url : string) : t :=
  mk (setopt_PROXY proxy_url curl_easy_init) None "" proxy_url "" ""
     throw_exception.

(** The header list [makeRequest] builds with [curl_slist_append]. *)
Definition headers (s : t) : list string :=
  ["Content-Type: application/json";
   "Authorization: Bearer " ++ token_ s]
  ++ (if negb (empty (organization_ s))
      then ["OpenAI-Organization: " ++ organization_ s]
      else []).

(** [curl_easy_perform(curl_)]: the transfer runs with the handle as it is
    configured now; it yields the result code and the bytes handed to
    [writeFunction], which appends them to the (empty) [response_string]. *)
Definition curl_easy_perform (net : Transfer) : M t (CURLcode * string) :=
  fun s e =>
    (Returned (result net, received net), s,
     mkEnv (cerr e) (cout e) (performed e ++ [curl_ s])).

Definition set_res_ (res : CURLcode) : M t unit :=
  modify (fun s => mk (curl_ s) (Some res) (url_ s) (proxy_url_ s) (token_ s)
                      (organization_ s) (throw_exception_ s)).

Section Methods.
Context {CL : CurlLib}.

Definition makeRequest (net : Transfer) : M t Response :=
  hs <- gets headers ;;
  modify (with_curl (setopt_HTTPHEADER hs)) ;;
  url <- gets url_ ;;
  modify (with_curl (setopt_URL url)) ;;
  performed <- curl_easy_perform net ;;
  let '(res, response_string) := performed in
  set_res_ res ;;
  if negb (Z.eqb res CURLE_OK)
  then
    let error_msg :=
      "curl_easy_perform() failed " ++ curl_easy_strerror res in
    throw_exception <- gets throw_exception_ ;;
    (if throw_exception
     then throw error_msg
     else to_cerr ("[OpenAI] curl_easy_perform() failed " ++ error_msg ++ nl)) ;;
    ret (mkResponse response_string true error_msg)
  else
    ret (mkResponse response_string false "").

Definition get (net : Transfer) : M t Response :=
  modify (with_curl setopt_HTTPGET) ;;
  makeRequest net.

Definition post (net : Transfer) : M t Response :=
  makeRequest net.

End Methods.

End Session.

(** ** [class OpenAI] *)

Module OpenAI.

Record t : Type := mk {
  base_url         : string;
  session_         : Session.t;
  token_           : string;
  organization_    : string;
  throw_exception_ : bool
}.

Definition with_session (s : Session.t) (o : t) : t :=
  mk (base_url o) s (token_ o) (organization_ o) (throw_exception_ o).

(** A method of the member [session_]. *)
Definition on_session {A : Type} (m : M Session.t A) : M t A :=
  zoom session_ with_session m.

(** [OpenAI(token, organization = "", throw_exception = true)]: the member
    initialisers, then the constructor body. *)
Definition new (token organization : string) (throw_exception : bool) : t :=
  let o := mk "https://api.openai.com/v1/" (Session.new throw_exception)
              token organization throw_exception in
  let body :=
    on_session (Session.setUrl "https://api.openai.com/v1/") ;;
    on_session (Session.setToken (token_ o) (organization_ o)) in
  snd (fst (body o (mkEnv [] [] []))).

Definition set_proxy (url : string) : M t unit :=
  on_session (Session.setProxyUrl url).

Definition set_throw_exception (throw_exception : bool) : M t unit :=
  modify (fun o => mk (base_url o) (session_ o) (token_ o) (organization_ o)
                      throw_exception).

Definition setBaseUrl (url : string) : M t unit :=
  modify (fun o => mk url (session_ o) (token_ o) (organization_ o)
                      (throw_exception_ o)).

Definition getBaseUrl : M t string := gets base_url.

(** [debug()]: [std::cout << token_ << '\n']. *)
Definition debug : M t unit :=
  token <- gets token_ ;;
  to_cout (token ++ nl).

Section Methods.
Context {CL : CurlLib} {JL : JsonLib} {BF : BuildFlags}.

Definition setParameters (suffix data : string) : M t unit :=
  base <- gets base_url ;;
  let complete_url := base ++ suffix in
  on_session (Session.setUrl complete_url) ;;
  on_session (Session.setBody data) ;;
  when OPENAI_VERBOSE_OUTPUT
    (to_cout (">> request: " ++ complete_url ++ "  " ++ data ++ nl)).

Definition trigger_error (msg : string) : M t unit :=
  throw_exception <- gets throw_exception_ ;;
  if throw_exception
  then throw msg
  else to_cerr ("[OpenAI] error. Reason: " ++ msg ++ nl).

(** [Json::parse(data)], which throws on text that is not JSON. *)
Definition parse (data : string) : M t Json :=
  fun o e => (Json_parse data, o, e).

Definition checkResponse (json : Json) : M t unit :=
  if negb (Nat.eqb (Json_count json "error") 0)
  then
    let reason := Json_dump (Json_index json "error") (-1) in
    trigger_error reason ;;
    when SLACKING_VERBOSE_OUTPUT
      (to_cerr ("<< response:" ++ nl ++ Json_dump json 2 ++ nl))
  else ret tt.

Definition isJson (data : string) : M t bool :=
  catch (parse data ;; ret true) (fun _ => ret false).

(** [post(const std::string& suffix, const std::string& data = "")] *)
Definition post (suffix data : string) (net : Transfer) : M t Json :=
  setParameters suffix data ;;
  response <- on_session (Session.post net) ;;
  when (is_error response) (trigger_error (error_message response)) ;;
  ok <- isJson (text response) ;;
  if ok
  then
    json <- parse (text response) ;;
    checkResponse json ;;
    ret json
  else
    when OPENAI_VERBOSE_OUTPUT
      (to_cerr "Response is not a valid JSON" ;;
       to_cout ("<< " ++ text response ++ nl)) ;;
    ret Json_null.

(** [get(const std::string& suffix, const std::string& data = "")] *)
Definition get (suffix data : string) (net : Transfer) : M t Json :=
  setParameters suffix data ;;
  response <- on_session (Session.get net) ;;
  when (is_error response) (trigger_error (error_message response)) ;;
  ok <- isJson (text response) ;;
  if ok
  then
    json <- parse (text response) ;;
    checkResponse json ;;
    ret json
  else
    when OPENAI_VERBOSE_OUTPUT
      (to_cerr ("Response is not a valid JSON" ++ nl) ;;
       to_cout ("<< " ++ text response ++ nl)) ;;
    ret Json_null.

(** [post(const std::string& suffix, const Json& json)] *)
Definition post_json (suffix : string) (json : Json) (net : Transfer)
  : M t Json :=
  post suffix (Json_dump json (-1)) net.

End Methods.

End OpenAI.

(** ** The category wrappers

    Each wrapper holds [openai_], a reference to the facade that owns it, so
    its methods are computations on that facade. *)

Section Categories.
Context {CL : CurlLib} {JL : JsonLib} {BF : BuildFlags}.

Definition CategoryModel_list (net : Transfer) : M OpenAI.t Json :=
  OpenAI.get "models" "" net.

Definition CategoryModel_retrieve (model : string) (net : Transfer)
  : M OpenAI.t Json :=
  OpenAI.get ("models/" ++ model) "" net.

Definition CategoryCompletion_create (input : Json) (net : Transfer)
  : M OpenAI.t Json :=
  OpenAI.post_json "completions" input net.

Definition CategoryEdit_create (input : Json) (net : Transfer)
  : M OpenAI.t Json :=
  OpenAI.post_json "edits" input net.

Definition CategoryImage_create (input : Json) (net : Transfer)
  : M OpenAI.t Json :=
  OpenAI.post_json "images/generations" input net.

Definition CategoryImage_edit (input : Json) (net : Transfer)
  : M OpenAI.t Json :=
  OpenAI.post_json "images/edits" input net.

Definition CategoryImage_variation (input : Json) (net : Transfer)
  : M OpenAI.t Json :=
  OpenAI.post_json "images/variations" input net.

Definition CategoryEmbedding_create (input : Json) (net : Transfer)
  : M OpenAI.t Json :=
  OpenAI.post_json "embeddings" input net.

Definition CategoryFile_list (net : Transfer) : M OpenAI.t Json :=
  OpenAI.get "files" "" net.

Definition CategoryFile_upload (input : Json) (net : Transfer)
  : M OpenAI.t Json :=
  OpenAI.post_json "files" input net.

Definition CategoryFile_retrieve (file_id : string) (net : Transfer)
  : M OpenAI.t Json :=
  OpenAI.get ("files/" ++ file_id) "" net.

Definition CategoryFile_content (file_id : string) (net : Transfer)
  : M OpenAI.t Json :=
  OpenAI.get (("files/" ++ file_id) ++ "/content") "" net.

Definition CategoryFineTune_create (input : Json) (net : Transfer)
  : M OpenAI.t Json :=
  OpenAI.post_json "fine-tunes" input net.

Definition CategoryFineTune_list (net : Transfer) : M OpenAI.t Json :=
  OpenAI.get "fine-tunes" "" net.

Definition CategoryFineTune_retrieve (file_id : string) (net : Transfer)
  : M OpenAI.t Json :=
  OpenAI.get ("fine-tunes/" ++ file_id) "" net.

Definition CategoryFineTune_content (file_id : string) (net : Transfer)
  : M OpenAI.t Json :=
  OpenAI.get (("fine-tunes/" ++ file_id) ++ "/content") "" net.

Definition CategoryFineTune_cancel (file_id : string) (net : Transfer)
  : M OpenAI.t Json :=
  OpenAI.get (("fine-tunes/" ++ file_id) ++ "/cancel") "" net.

Definition CategoryFineTune_events (file_id : string) (net : Transfer)
  : M OpenAI.t Json :=
  OpenAI.get (("fine-tunes/" ++ file_id) ++ "/events") "" net.

Definition CategoryModeration_create (input : Json) (net : Transfer)
  : M OpenAI.t Json :=
  OpenAI.post_json "moderations" input net.

(** The operations the wrappers offer, with their arguments. *)
Inductive Operation : Type :=
| model_list
| model_retrieve (model : string)
| completion_create (input : Json)
| edit_create (input : Json)
| image_create (input : Json)
| image_edit (input : Json)
| image_variation (input : Json)
| embedding_create (input : Json)
| file_list
| file_upload (input : Json)
| file_retrieve (file_id : string)
| file_content (file_id : string)
| fine_tune_create (input : Json)
| fine_tune_list
| fine_tune_retrieve (fine_tune_id : string)
| fine_tune_content (fine_tune_id : string)
| fine_tune_cancel (fine_tune_id : string)
| fine_tune_events (fine_tune_id : string)
| moderation_create (input : Json).

Definition invoke (op : Operation) : Transfer -> M OpenAI.t Json :=
  match op with
  | model_list => CategoryModel_list
  | model_retrieve model => CategoryModel_retrieve model
  | completion_create input => CategoryCompletion_create input
  | edit_create input => CategoryEdit_create input
  | image_create input => CategoryImage_create input
  | image_edit input => CategoryImage_edit input
  | image_variation input => CategoryImage_variation input
  | embedding_create input => CategoryEmbedding_create input
  | file_list => CategoryFile_list
  | file_upload input => CategoryFile_upload input
  | file_retrieve file_id => CategoryFile_retrieve file_id
  | file_content file_id => CategoryFile_content file_id
  | fine_tune_create input => CategoryFineTune_create input
  | fine_tune_list => CategoryFineTune_list
  | fine_tune_retrieve id => CategoryFineTune_retrieve id
  | fine_tune_content id => CategoryFineTune_content id
  | fine_tune_cancel id => CategoryFineTune_cancel id
  | fine_tune_events id => CategoryFineTune_events id
  | moderation_create input => CategoryModeration_create input
  end.

(** *** The suffix table of the specification

    Written from the specification's list of suffixes (section 6), not from
    the code: a suffix is a template whose [{id}] is the path parameter. *)
Inductive Segment : Type :=
| Lit (s : string)
| PathParameter.

Definition spec_template (op : Operation) : list Segment :=
  match op with
  | model_list => [Lit "models"]
  | model_retrieve _ => [Lit "models/"; PathParameter]
  | completion_create _ => [Lit "completions"]
  | edit_create _ => [Lit "edits"]
  | image_create _ => [Lit "images/generations"]
  | image_edit _ => [Lit "images/edits"]
  | image_variation _ => [Lit "images/variations"]
  | embedding_create _ => [Lit "embeddings"]
  | file_list | file_upload _ => [Lit "files"]
  | file_retrieve _ => [Lit "files/"; PathParameter]
  | file_content _ => [Lit "files/"; PathParameter; Lit "/content"]
  | fine_tune_create _ | fine_tune_list => [Lit "fine-tunes"]
  | fine_tune_retrieve _ => [Lit "fine-tunes/"; PathParameter]
  | fine_tune_content _ => [Lit "fine-tunes/"; PathParameter; Lit "/content"]
  | fine_tune_cancel _ => [Lit "fine-tunes/"; PathParameter; Lit "/cancel"]
  | fine_tune_events _ => [Lit "fine-tunes/"; PathParameter; Lit "/events"]
  | moderation_create _ => [Lit "moderations"]
  end.

Definition path_parameter (op : Operation) : string :=
  match op with
  | model_retrieve id | file_retrieve id | file_content id
  | fine_tune_retrieve id | fine_tune_content id | fine_tune_cancel id
  | fine_tune_events id => id
  | _ => ""
  end.

Fixpoint fill (param : string) (template : list Segment) : string :=
  match template with
  | [] => ""
  | Lit s :: rest => s ++ fill param rest
  | PathParameter :: rest => param ++ fill param rest
  end.

Definition spec_url (base : string) (op : Operation) : string :=
  base ++ fill (path_parameter op) (spec_template op).

End Categories.

(** ** The process-wide singleton *)

(** The storage of the function-local [static OpenAI instance] of
    [configure]: [None] until control first passes through its
    declaration. *)
Record Statics : Type := mkStatics {
  configure_instance : option OpenAI.t
}.

Definition program_start : Statics := mkStatics None.

(** [configure(token, organization, throw_exception)] returns a reference to
    the static object; [use] is what the caller does through that
    reference.  The static is constructed from the arguments of the call
    that finds it unconstructed, and from then on it is the object every
    call returns. *)
Definition configure {A : Type} (token organization : string)
    (throw_exception : bool) (use : M OpenAI.t A) : M Statics A :=
  fun st e =>
    let instance :=
      match configure_instance st with
      | Some o => o
      | None => OpenAI.new token organization throw_exception
      end in
    let '(r, o', e') := use instance e in
    (r, mkStatics (Some o'), e').

(** [instance()] is [configure("")] with the default arguments. *)
Definition instance {A : Type} (use : M OpenAI.t A) : M Statics A :=
  configure "" "" true use.

Section FreeFunctions.
Context {CL : CurlLib} {JL : JsonLib} {BF : BuildFlags}.

Definition post (suffix : string) (json : Json) (net : Transfer)
  : M Statics Json :=
  instance (OpenAI.post_json suffix json net).

Definition get (suffix : string) (net : Transfer) : M Statics Json :=
  instance (OpenAI.get suffix "" net).

(** [model()], [completion()], [edit()], [image()], [embedding()],
    [file()], [fineTune()] and [moderation()] return the wrapper member of
    [instance()]; the operation called on it runs on that instance. *)
Definition category (op : Operation) (net : Transfer) : M Statics Json :=
  instance (invoke op net).

End FreeFunctions.

(** The two request functions, [get] and [post], by name. *)
Inductive Verb : Type := GET | POST.

(** ** Sequences of calls on one facade *)

Section Histories.
Context {CL : CurlLib} {JL : JsonLib} {BF : BuildFlags}.

(** What a caller can do with an [OpenAI] object through its member
    functions and wrappers.  Every request comes with the [Transfer] the
    network answers it with. *)
Inductive Call : Type :=
| do_set_proxy (url : string)
| do_setBaseUrl (url : string)
| do_set_throw_exception (throw_exception : bool)
| do_get (suffix data : string) (net : Transfer)
| do_post (suffix data : string) (net : Transfer)
| do_invoke (op : Operation) (net : Transfer).

Definition run_call (c : Call) : M OpenAI.t unit :=
  match c with
  | do_set_proxy url => OpenAI.set_proxy url
  | do_setBaseUrl url => OpenAI.setBaseUrl url
  | do_set_throw_exception b => OpenAI.set_throw_exception b
  | do_get suffix data net => OpenAI.get suffix data net ;; ret tt
  | do_post suffix data net => OpenAI.post suffix data net ;; ret tt
  | do_invoke op net => invoke op net ;; ret tt
  end.

Definition changes_error_mode (c : Call) : bool :=
  match c with
  | do_set_throw_exception _ => true
  | _ => false
  end.

(** The object and the environment after a sequence of calls; a caller that
    catches an exception goes on with the object as the throw left it. *)
Fixpoint after (history : list Call) (o : OpenAI.t) (e : Env)
  : OpenAI.t * Env :=
  match history with
  | [] => (o, e)
  | c :: rest =>
      let '(_, o', e') := run_call c o e in
      after rest o' e'
  end.

End Histories.

(** ** Several threads on one session

    Threads that call [get]/[post] on one facade share its [session_].  A
    call is the sequence of its steps on the shared session, in program
    order; steps of different threads interleave.  (C++ gives no meaning to
    unsynchronised concurrent writes of [url_]; the interleaving of whole
    statements is the most orderly behaviour such a program can have.) *)

Module Concurrent.

(** One call [get(suffix, data)] or [post(suffix, data)] and the transfer
    that answers it. *)
Record Request : Type := mkRequest {
  verb   : Verb;
  suffix : string;
  data   : string;
  net    : Transfer
}.

Inductive Instr : Type :=
| I_setUrl (url : string)     (* setParameters: session_.setUrl(complete_url) *)
| I_setBody (data : string)   (* setParameters: session_.setBody(data) *)
| I_httpget                   (* Session::get: the three curl_easy_setopt *)
| I_lock                      (* makeRequest: lock_guard lock(mutex_request_) *)
| I_options                   (* makeRequest: CURLOPT_HTTPHEADER, CURLOPT_URL *)
| I_perform (net : Transfer)  (* makeRequest: res_ = curl_easy_perform(curl_) *)
| I_unlock.                   (* makeRequest: the lock_guard is destroyed *)

(** The steps of one call on a facade whose [base_url] is [base]. *)
Definition code (base : string) (r : Request) : list Instr :=
  [I_setUrl (base ++ suffix r); I_setBody (data r)]
  ++ match verb r with GET => [I_httpget] | POST => [] end
  ++ [I_lock; I_options; I_perform (net r); I_unlock].

Definition program (base : string) (calls : list Request) : list Instr :=
  flat_map (code base) calls.

Record State : Type := mkState {
  session        : Session.t;
  mutex_request_ : option nat;          (* the thread that holds the mutex *)
  threads        : list (list Instr);   (* what each thread still has to do *)
  wire           : list (nat * CURL)    (* who performed which transfer *)
}.

Definition start (s : Session.t) (base : string)
    (calls : list (list Request)) : State :=
  mkState s None (map (program base) calls) [].

Fixpoint update {A : Type} (n : nat) (a : A) (l : list A) : list A :=
  match l, n with
  | [], _ => []
  | _ :: rest, O => a :: rest
  | x :: rest, S n' => x :: update n' a rest
  end.

(** The session after a method that cannot throw. *)
Definition exec (m : M Session.t unit) (s : Session.t) : Session.t :=
  snd (fst (m s (mkEnv [] [] []))).

Definition set_options (s : Session.t) : Session.t :=
  let s1 := Session.with_curl (setopt_HTTPHEADER (Session.headers s)) s in
  Session.with_curl (setopt_URL (Session.url_ s1)) s1.

(** One step of thread [t]; [None] when [t] has finished or waits for the
    mutex. *)
Definition step (t : nat) (st : State) : option State :=
  match nth_error (threads st) t with
  | Some (i :: rest) =>
      let go s m w := Some (mkState s m (update t rest (threads st)) w) in
      match i with
      | I_setUrl url =>
          go (exec (Session.setUrl url) (session st)) (mutex_request_ st)
             (wire st)
      | I_setBody data =>
          go (exec (Session.setBody data) (session st)) (mutex_request_ st)
             (wire st)
      | I_httpget =>
          go (Session.with_curl setopt_HTTPGET (session st))
             (mutex_request_ st) (wire st)
      | I_lock =>
          match mutex_request_ st with
          | None => go (session st) (Some t) (wire st)
          | Some _ => None
          end
      | I_options =>
          go (set_options (session st)) (mutex_request_ st) (wire st)
      | I_perform net =>
          go (exec (Session.set_res_ (result net)) (session st))
             (mutex_request_ st)
             ((wire st ++ [(t, Session.curl_ (session st))])%list)
      | I_unlock => go (session st) None (wire st)
      end
  | _ => None
  end.

(** The scheduler picks a thread at every turn; picking one that cannot move
    changes nothing. *)
Fixpoint run (schedule : list nat) (st : State) : State :=
  match schedule with
  | [] => st
  | t :: rest =>
      match step t st with
      | Some st' => run rest st'
      | None => run rest st
      end
  end.

(** Thread [t] is in the request-execution path: its next step is one of
    those [makeRequest] does under the lock. *)
Definition executing (st : State) (t : nat) : bool :=
  match nth_error (threads st) t with
  | Some (I_options :: _) | Some (I_perform _ :: _) | Some (I_unlock :: _) =>
      true
  | _ => false
  end.

(** A program as thread [t] may have it left: [held] tells whether [t] holds
    the mutex. *)
Fixpoint bracketed (held : bool) (p : list Instr) : bool :=
  match p with
  | [] => negb held
  | I_lock :: rest => negb held && bracketed true rest
  | I_unlock :: rest => held && bracketed false rest
  | I_options :: rest | I_perform _ :: rest => held && bracketed true rest
  | I_setUrl _ :: rest | I_setBody _ :: rest | I_httpget :: rest =>
      negb held && bracketed false rest
  end.

Definition holder_is (m : option nat) (t : nat) : bool :=
  match m with
  | Some h => Nat.eqb h t
  | None => false
  end.

Definition holds (st : State) (t : nat) : bool :=
  holder_is (mutex_request_ st) t.

(** The invariant of the mutex: a thread's remaining program is bracketed
    according to whether it is the holder. *)
Definition lock_invariant (st : State) : Prop :=
  forall t p, nth_error (threads st) t = Some p ->
              bracketed (holds st t) p = true.

(** The reading of "one thread's in-flight configuration is never
    overwritten by another's before use": every transfer a thread performed
    went to the URL of one of that thread's own calls. *)
Definition own_configuration (base : string) (calls : list (list Request))
    (st : State) : Prop :=
  forall t c, In (t, c) (wire st) ->
    exists mine r, nth_error calls t = Some mine /\ In r mine /\
                   CURLOPT_URL c = Some (base ++ suffix r).

End Concurrent.

(** ** Implementations of the interfaces, to run the model on examples *)

Module Sample.

(** Result texts of three libcurl codes. *)
Definition strerror (code : CURLcode) : string :=
  if Z.eqb code 6 then "Couldn't resolve host name"
  else if Z.eqb code 7 then "Couldn't connect to server"
  else if Z.eqb code 28 then "Timeout was reached"
  else if Z.eqb code 0 then "No error"
  else "Unknown error".

Definition curl : CurlLib := {| curl_easy_strerror := strerror |}.

(** A fragment of JSON: [null], strings without escapes, and objects, with
    no white space between tokens. *)
#[warnings="-register-all"] Inductive value : Type :=
| Null
| Str (s : string)
| Obj (members : list (string * value)).

Definition dq : ascii := ascii_of_nat 34.
Definition quoted (s : string) : string :=
  String dq s ++ String dq EmptyString.

(** The characters up to the closing quote, and what follows it. *)
Fixpoint scan_string (s : string) : option (string * string) :=
  match s with
  | EmptyString => None
  | String c rest =>
      if Ascii.eqb c dq then Some (EmptyString, rest)
      else match scan_string rest with
           | Some (body, rest') => Some (String c body, rest')
           | None => None
           end
  end.

Fixpoint parse_value (fuel : nat) (s : string) : option (value * string) :=
  match fuel with
  | O => None
  | S fuel' =>
      match s with
      | String "n" (String "u" (String "l" (String "l" rest))) =>
          Some (Null, rest)
      | String "{" (String "}" rest) => Some (Obj [], rest)
      | String "{" rest =>
          match parse_members fuel' rest with
          | Some (ms, rest') => Some (Obj ms, rest')
          | None => None
          end
      | String c rest =>
          if Ascii.eqb c dq
          then match scan_string rest with
               | Some (body, rest') => Some (Str body, rest')
               | None => None
               end
          else None
      | EmptyString => None
      end
  end
with parse_members (fuel : nat) (s : string)
  : option (list (string * value) * string) :=
  match fuel with
  | O => None
  | S fuel' =>
      match s with
      | String c rest =>
          if Ascii.eqb c dq
          then match scan_string rest with
               | Some (key, String ":" after_colon) =>
                   match parse_value fuel' after_colon with
                   | Some (v, String "," more) =>
                       match parse_members fuel' more with
                       | Some (ms, rest') => Some ((key, v) :: ms, rest')
                       | None => None
                       end
                   | Some (v, String "}" rest') => Some ([(key, v)], rest')
                   | _ => None
                   end
               | _ => None
               end
          else None
      | EmptyString => None
      end
  end.

Definition parse (s : string) : Outcome value :=
  match parse_value (S (String.length s)) s with
  | Some (v, EmptyString) => Returned v
  | _ => Raised "parse_error"
  end.

Definition has_key (key : string) (member : string * value) : bool :=
  String.eqb (fst member) key.

Definition count (v : value) (key : string) : nat :=
  match v with
  | Obj ms => if existsb (has_key key) ms then 1 else 0
  | _ => 0
  end.

Definition index (v : value) (key : string) : value :=
  match v with
  | Obj ms =>
      match find (has_key key) (rev ms) with
      | Some (_, x) => x
      | None => Null
      end
  | _ => Null
  end.

(** The compact form; the fragment has no indented one. *)
Fixpoint dump (v : value) : string :=
  match v with
  | Null => "null"
  | Str s => quoted s
  | Obj ms =>
      "{" ++
      (fix members (l : list (string * value)) : string :=
         match l with
         | [] => ""
         | [(k, x)] => quoted k ++ ":" ++ dump x
         | (k, x) :: rest => quoted k ++ ":" ++ dump x ++ "," ++ members rest
         end) ms
      ++ "}"
  end.

Definition json : JsonLib :=
  {| Json := value;
     Json_null := Null;
     Json_parse := parse;
     Json_count := count;
     Json_index := index;
     Json_dump := fun v _ => dump v |}.

(** The header compiled without the verbose switches. *)
Definition quiet : BuildFlags :=
  {| OPENAI_VERBOSE_OUTPUT := false; SLACKING_VERBOSE_OUTPUT := false |}.

Definition verbose : BuildFlags :=
  {| OPENAI_VERBOSE_OUTPUT := true; SLACKING_VERBOSE_OUTPUT := true |}.

(** An API error payload, and an answer that is not JSON. *)
Definition error_text : string :=
  "{" ++ quoted "error" ++ ":{" ++ quoted "message" ++ ":"
      ++ quoted "Incorrect API key provided" ++ "}}".

Definition html_text : string := "<html>502 Bad Gateway</html>".

Definition could_not_connect : Transfer := mkTransfer 7%Z "".
Definition answered (body : string) : Transfer := mkTransfer CURLE_OK body.

End Sample.

(** ** What a finished call looks like *)

Definition outcome {S A : Type} (x : Outcome A * S * Env) : Outcome A :=
  fst (fst x).
Definition object {S A : Type} (x : Outcome A * S * Env) : S := snd (fst x).
Definition environment {S A : Type} (x : Outcome A * S * Env) : Env := snd x.

Definition raises {S A : Type} (x : Outcome A * S * Env) : Prop :=
  exists what, outcome x = Raised what.

Definition returns {S A : Type} (x : Outcome A * S * Env) : Prop :=
  exists a, outcome x = Returned a.

(** [later] extends [earlier] by the entries [more], in this order. *)
Definition emitted (earlier later more : list string) : Prop :=
  exists rest, later = (earlier ++ more ++ rest)%list.

Section FacadeCalls.
Context {CL : CurlLib} {JL : JsonLib} {BF : BuildFlags}.

(** [get] or [post] of the facade, by name. *)
Definition facade (v : Verb) (suffix data : string)
    (net : Transfer) : M OpenAI.t Json :=
  match v with
  | GET => OpenAI.get suffix data net
  | POST => OpenAI.post suffix data net
  end.

(** The first two statements of [get]/[post]: [setParameters], then the
    session's [get()]/[post()], whose [Response] the rest of the function
    interprets. *)
Definition transport (v : Verb) (suffix data : string)
    (net : Transfer) : M OpenAI.t Response :=
  OpenAI.setParameters suffix data ;;
  OpenAI.on_session
    (match v with
     | GET => Session.get net
     | POST => Session.post net
     end).

End FacadeCalls.

(** The ways of reaching the singleton without [configure]. *)
Section FirstUse.
Context {CL : CurlLib} {JL : JsonLib} {BF : BuildFlags}.

Inductive Unconfigured : Type :=
| by_instance
| by_get (suffix : string) (net : Transfer)
| by_post (suffix : string) (json : Json) (net : Transfer)
| by_category (op : Operation) (net : Transfer).

Definition first_use (u : Unconfigured) : M Statics unit :=
  match u with
  | by_instance => instance (ret tt)
  | by_get suffix net => get suffix net ;; ret tt
  | by_post suffix json net => post suffix json net ;; ret tt
  | by_category op net => category op net ;; ret tt
  end.

End FirstUse.

(** ** Vocabulary of the statements *)

Section Vocabulary.
Context {CL : CurlLib} {JL : JsonLib} {BF : BuildFlags}.

(** The handle a request is performed with. *)
Definition request_handle (s : Session.t) : CURL :=
  setopt_URL (Session.url_ s)
    (setopt_HTTPHEADER (Session.headers s) (Session.curl_ s)).

Definition failure_text (net : Transfer) : string :=
  "curl_easy_perform() failed " ++ curl_easy_strerror (result net).

(** [get()] or [post()] of the session, by name. *)
Definition session_call (v : Verb) (net : Transfer)
  : M Session.t Response :=
  match v with
  | GET => Session.get net
  | POST => Session.post net
  end.

Definition content_type_header : string := "Content-Type: application/json".

Definition authorization_header (token : string) : string :=
  "Authorization: Bearer " ++ token.

Definition organization_header (organization : string) : string :=
  "OpenAI-Organization: " ++ organization.

(** What [get]/[post] do with the [Response] of the session. *)
Definition interpret (v : Verb) (response : Response)
  : M OpenAI.t Json :=
  when (is_error response)
       (OpenAI.trigger_error (error_message response)) ;;
  ok <- OpenAI.isJson (text response) ;;
  if ok
  then
    json <- OpenAI.parse (text response) ;;
    OpenAI.checkResponse json ;;
    ret json
  else
    when OPENAI_VERBOSE_OUTPUT
      (to_cerr (match v with
                | GET => "Response is not a valid JSON" ++ nl
                | POST => "Response is not a valid JSON"
                end) ;;
       to_cout ("<< " ++ text response ++ nl)) ;;
    ret Json_null.

(** The session as [setParameters] and the verb leave it for
    [makeRequest]. *)
Definition prepared (v : Verb) (suffix data : string)
    (o : OpenAI.t) : Session.t :=
  let s := OpenAI.session_ o in
  Session.mk
    (mkCURL (CURLOPT_PROXY (Session.curl_ s)) (Some data)
            (match v with
             | GET => HTTP_GET
             | POST => HTTP_POST
             end)
            (CURLOPT_HTTPHEADER (Session.curl_ s))
            (CURLOPT_URL (Session.curl_ s)))
    (Session.res_ s) (OpenAI.base_url o ++ suffix) (Session.proxy_url_ s)
    (Session.token_ s) (Session.organization_ s)
    (Session.throw_exception_ s).

Definition announced (suffix data : string) (o : OpenAI.t) (e : Env) : Env :=
  if OPENAI_VERBOSE_OUTPUT
  then mkEnv (cerr e)
             (cout e ++ [">> request: " ++ (OpenAI.base_url o ++ suffix)
                         ++ "  " ++ data ++ nl])
             (performed e)
  else e.

(** The line [trigger_error] writes in soft mode. *)
Definition reason_line (msg : string) : string :=
  "[OpenAI] error. Reason: " ++ msg ++ nl.

Definition api_reason (json : Json) : string :=
  Json_dump (Json_index json "error") (-1).

(** The facade object once the session call is over. *)
Definition landed (v : Verb) (suffix data : string)
    (net : Transfer) (o : OpenAI.t) : OpenAI.t :=
  let s := prepared v suffix data o in
  OpenAI.with_session
    (Session.mk (request_handle s) (Some (result net)) (Session.url_ s)
                (Session.proxy_url_ s) (Session.token_ s)
                (Session.organization_ s) (Session.throw_exception_ s))
    o.

(** The environment once the transfer was performed. *)
Definition dispatched (v : Verb) (suffix data : string)
    (o : OpenAI.t) (e : Env) : Env :=
  let e1 := announced suffix data o e in
  mkEnv (cerr e1) (cout e1)
        (performed e1 ++ [request_handle (prepared v suffix data o)]).

Definition session_line (net : Transfer) : string :=
  "[OpenAI] curl_easy_perform() failed " ++ failure_text net ++ nl.

Definition complained (line : string) (e : Env) : Env :=
  mkEnv (cerr e ++ [line]) (cout e) (performed e).

(** The two copies of the flag: the facade's, read by [trigger_error], and
    the session's, read by [makeRequest]. *)
Definition flags (o : OpenAI.t) : bool * bool :=
  (OpenAI.throw_exception_ o, Session.throw_exception_ (OpenAI.session_ o)).

(** The object a call of [configure] works on. *)
Definition designated (token organization : string) (throw_exception : bool)
    (st : Statics) : OpenAI.t :=
  match configure_instance st with
  | Some o => o
  | None => OpenAI.new token organization throw_exception
  end.

(** What an object says about the credentials and the mode it was made
    with: its own fields and the session's copies. *)
Definition identity (o : OpenAI.t) : string * string * bool * string * string :=
  (OpenAI.token_ o, OpenAI.organization_ o, OpenAI.throw_exception_ o,
   Session.token_ (OpenAI.session_ o),
   Session.organization_ (OpenAI.session_ o)).

(** The credentials alone, in the facade's fields and in the session's. *)
Definition credentials (o : OpenAI.t) : string * string * string * string :=
  (OpenAI.token_ o, OpenAI.organization_ o,
   Session.token_ (OpenAI.session_ o),
   Session.organization_ (OpenAI.session_ o)).

End Vocabulary.

(** ** Sequences of calls on one session *)

Section SessionHistories.
Context {CL : CurlLib}.

(** What a caller can do with a [Session] through its member functions. *)
Inductive SessionCall : Type :=
| s_setUrl (url : string)
| s_setToken (token organization : string)
| s_setProxyUrl (url : string)
| s_setBody (data : string)
| s_get (net : Transfer)
| s_post (net : Transfer).

Definition run_session_call (c : SessionCall) : M Session.t unit :=
  match c with
  | s_setUrl url => Session.setUrl url
  | s_setToken token organization => Session.setToken token organization
  | s_setProxyUrl url => Session.setProxyUrl url
  | s_setBody data => Session.setBody data
  | s_get net => Session.get net ;; ret tt
  | s_post net => Session.post net ;; ret tt
  end.

Definition sets_token (c : SessionCall) : bool :=
  match c with
  | s_setToken _ _ => true
  | _ => false
  end.

(** The session and the environment after a sequence of calls; a caller
    that catches an exception goes on with the session as the throw left
    it. *)
Fixpoint session_after (history : list SessionCall) (s : Session.t)
    (e : Env) : Session.t * Env :=
  match history with
  | [] => (s, e)
  | c :: rest =>
      let '(_, s', e') := run_session_call c s e in
      session_after rest s' e'
  end.

(** The credentials a session holds. *)
Definition session_credentials (s : Session.t) : string * string :=
  (Session.token_ s, Session.organization_ s).

End SessionHistories.

(** ** Concrete inputs *)

Module Scenario.
Import Concurrent.

#[local] Existing Instance Sample.curl.
#[local] Existing Instance Sample.json.
#[local] Existing Instance Sample.quiet.

Definition quiet_env : Env := mkEnv [] [] [].

(** Two threads share the facade [OpenAI("sk-test")]: thread 0 calls
    [get("models")] and thread 1 calls [get("files")]. *)
Definition two_callers : list (list Request) :=
  [[mkRequest GET "models" "" (Sample.answered "{}")];
   [mkRequest GET "files" "" (Sample.answered "{}")]].

Definition shared : OpenAI.t := OpenAI.new "sk-test" "" true.

(** Thread 0 runs [setParameters] and the verb options, then thread 1 does
    the same, then thread 0 enters [makeRequest]. *)
Definition overtaking : list nat := [0; 0; 0; 1; 1; 1; 0; 0; 0].

Definition soft_client : OpenAI.t := OpenAI.new "sk-test" "org-1" false.

Definition earlier_calls : list Call :=
  [do_setBaseUrl "https://example.test/v1/";
   do_get "models" "" (Sample.answered "{}");
   do_set_throw_exception true;
   do_set_proxy "http://proxy.test:3128";
   do_set_throw_exception false].

Definition error_payload : @Json Sample.json :=
  Sample.Obj
    [("error",
      Sample.Obj [("message", Sample.Str "Incorrect API key provided")])].

Definition error_answer : Transfer := Sample.answered Sample.error_text.

(** Thread 0 has taken the mutex while thread 1 is still configuring. *)
Definition thread0_inside : State :=
  run [0; 0; 0; 1; 0]
      (start (OpenAI.session_ shared) (OpenAI.base_url shared) two_callers).

(** The answer [{}], and a transfer that timed out after receiving it. *)
Definition empty_object : @Json Sample.json := Sample.Obj [].

Definition cut_short : Transfer := mkTransfer 28%Z "{}".

(** A facade constructed in throwing mode and then switched to soft mode,
    and a transfer that cannot resolve the host. *)
Definition switched_client : OpenAI.t :=
  fst (after [do_set_throw_exception false] (OpenAI.new "sk-test" "" true)
             quiet_env).

Definition unresolved_host : Transfer := mkTransfer 6%Z "".

(** A session used before and after its credentials are set. *)
Definition before_setting : list SessionCall :=
  [s_setUrl "https://api.openai.com/v1/models";
   s_get (Sample.answered "{}")].

Definition after_setting : list SessionCall :=
  [s_setUrl "https://api.openai.com/v1/completions";
   s_setBody "{}";
   s_post Sample.could_not_connect;
   s_setProxyUrl "http://proxy.test:3128"].

End Scenario.

(** ** What a sequence of calls has configured *)

Section Configuration.
Context {CL : CurlLib} {JL : JsonLib} {BF : BuildFlags}.

(** The base URL after [history], from the one before it: the argument of
    the last [setBaseUrl]. *)
Definition last_base_url (history : list Call) (before : string) : string :=
  fold_left (fun url c => match c with
                          | do_setBaseUrl url' => url'
                          | _ => url
                          end)
            history before.

(** The proxy after [history]: the argument of the last [set_proxy]. *)
Definition last_proxy (history : list Call) (before : option string)
  : option string :=
  fold_left (fun p c => match c with
                        | do_set_proxy url => Some url
                        | _ => p
                        end)
            history before.

(** The calls that go to the network. *)
Definition is_request (c : Call) : bool :=
  match c with
  | do_get _ _ _ | do_post _ _ _ | do_invoke _ _ => true
  | _ => false
  end.

(** The JSON argument of an operation, when it takes one. *)
Definition input_of (op : Operation) : option Json :=
  match op with
  | completion_create input | edit_create input | image_create input
  | image_edit input | image_variation input | embedding_create input
  | file_upload input | fine_tune_create input | moderation_create input =>
      Some input
  | _ => None
  end.

(** What [get]/[post] return in soft mode when nothing stops them: the
    parsed text, or the null value for a text that is not JSON. *)
Definition parsed_or_null (received_text : string) : Json :=
  match Json_parse received_text with
  | Returned j => j
  | Raised _ => Json_null
  end.

(** The proxy option of the facade's handle. *)
Definition proxy_of (o : OpenAI.t) : option string :=
  CURLOPT_PROXY (Session.curl_ (OpenAI.session_ o)).

End Configuration.

(** The holder of the mutex is one of the threads. *)
Definition holder_alive (st : Concurrent.State) : Prop :=
  forall h, Concurrent.mutex_request_ st = Some h ->
            exists p, nth_error (Concurrent.threads st) h = Some p.

(** Some thread has not finished its calls. *)
Definition unfinished (st : Concurrent.State) : Prop :=
  exists t i rest, nth_error (Concurrent.threads st) t = Some (i :: rest).

(** * Properties *)

(** ** The transport session *)

Section SessionFacts.
Context {CL : CurlLib}.

Lemma makeRequest_run (net : Transfer) (s : Session.t) (e : Env) :
  let c := request_handle s in
  let s' := Session.mk c (Some (result net)) (Session.url_ s)
              (Session.proxy_url_ s) (Session.token_ s)
              (Session.organization_ s) (Session.throw_exception_ s) in
  let sent := (performed e ++ [c])%list in
  Session.makeRequest net s e =
  if Z.eqb (result net) CURLE_OK
  then (Returned (mkResponse (received net) false ""), s',
        mkEnv (cerr e) (cout e) sent)
  else if Session.throw_exception_ s
       then (Raised (failure_text net), s', mkEnv (cerr e) (cout e) sent)
       else (Returned (mkResponse (received net) true (failure_text net)), s',
             mkEnv (cerr e ++ ["[OpenAI] curl_easy_perform() failed "
                               ++ failure_text net ++ nl])
                   (cout e) sent).
Proof.
  destruct s as [c r u p tk org th]; destruct net as [code body].
  unfold Session.makeRequest, bind, gets, modify, Session.curl_easy_perform,
    Session.set_res_, throw, to_cerr, ret, failure_text,
    request_handle; simpl.
  destruct (Z.eqb code CURLE_OK); simpl; [reflexivity|].
  destruct th; reflexivity.
Qed.

End SessionFacts.

(** ** The facade *)

Section FacadeFacts.
Context {CL : CurlLib} {JL : JsonLib} {BF : BuildFlags}.

Lemma bind_assoc {S A B C : Type} (m : M S A) (k : A -> M S B)
    (h : B -> M S C) (s : S) (e : Env) :
  bind (bind m k) h s e = bind m (fun a => bind (k a) h) s e.
Proof.
  unfold bind; destruct (m s e) as [[[a|w] s'] e']; reflexivity.
Qed.

Lemma facade_transport_interpret v suffix data net o e :
  facade v suffix data net o e =
  (response <- transport v suffix data net ;; interpret v response) o e.
Proof.
  unfold transport; rewrite bind_assoc.
  destruct v; reflexivity.
Qed.

Lemma transport_run v suffix data net o e :
  transport v suffix data net o e =
  let '(r, s', e') :=
    Session.makeRequest net (prepared v suffix data o)
                        (announced suffix data o e) in
  (r, OpenAI.with_session s' o, e').
Proof.
  destruct o as [base s tk org th]; destruct s as [c r u p stk sorg sth].
  unfold transport, OpenAI.setParameters, OpenAI.on_session, zoom,
    Session.setUrl, Session.setBody, Session.get, Session.post, announced,
    prepared, when.
  destruct v, OPENAI_VERBOSE_OUTPUT;
    cbn [bind gets modify to_cout ret OpenAI.base_url OpenAI.session_
         OpenAI.with_session Session.with_curl Session.curl_ Session.res_
         Session.url_ Session.proxy_url_ Session.token_
         Session.organization_ Session.throw_exception_ setopt_POSTFIELDS
         setopt_HTTPGET CURLOPT_PROXY CURLOPT_POSTFIELDS http_method
         CURLOPT_HTTPHEADER CURLOPT_URL cerr cout performed];
    rewrite !makeRequest_run;
    cbn [Session.throw_exception_ Session.url_ Session.proxy_url_
         Session.token_ Session.organization_ cerr cout performed];
    (destruct (Z.eqb (result net) CURLE_OK);
     [reflexivity | destruct sth; reflexivity]).
Qed.

End FacadeFacts.

Section InterpretFacts.
Context {CL : CurlLib} {JL : JsonLib} {BF : BuildFlags}.

Ltac run_interpret :=
  cbv beta iota delta
    [interpret OpenAI.trigger_error OpenAI.isJson OpenAI.parse
     OpenAI.checkResponse when bind catch gets throw ret to_cerr to_cout
     outcome object environment negb];
  cbn [fst snd text is_error error_message cerr cout performed].

(** Case analysis on whatever a conditional of the goal tests. *)
Ltac split_cases :=
  repeat match goal with
         | |- context [match ?x with _ => _ end] =>
             lazymatch x with
             | context [match _ with _ => _ end] => fail
             | _ => destruct x eqn:?; run_interpret
             end
         end.

(** Interpreting a response never touches the facade object. *)
Lemma interpret_object v r o e : object (interpret v r o e) = o.
Proof.
  destruct r as [txt err msg]; run_interpret; split_cases; reflexivity.
Qed.

Lemma interpret_performed v r o e :
  performed (environment (interpret v r o e)) = performed e.
Proof.
  destruct r as [txt err msg]; run_interpret; split_cases; reflexivity.
Qed.

(** Hard mode, transport error reported by the session. *)
Lemma interpret_transport_error_hard v r o e :
  is_error r = true -> OpenAI.throw_exception_ o = true ->
  interpret v r o e = (Raised (error_message r), o, e).
Proof.
  destruct r as [txt err msg]; simpl; intros -> Hth.
  run_interpret; rewrite Hth; reflexivity.
Qed.

(** Soft mode: whatever the response, the call returns; a transport error
    leaves its reason on [cerr]. *)
Lemma interpret_soft v r o e :
  OpenAI.throw_exception_ o = false ->
  returns (interpret v r o e) /\
  (is_error r = true ->
   emitted (cerr e) (cerr (environment (interpret v r o e)))
           [reason_line (error_message r)]).
Proof.
  destruct r as [txt err msg]; simpl; intros Hth.
  unfold returns, emitted, reason_line; run_interpret.
  split_cases; try congruence;
    (split; [eexists; reflexivity|]); intros Herr;
    try discriminate; rewrite <- ?app_assoc; eexists; reflexivity.
Qed.

(** No transport error and a text that is not JSON: the empty value. *)
Lemma interpret_not_json v r o e w :
  is_error r = false -> Json_parse (text r) = Raised w ->
  outcome (interpret v r o e) = Returned Json_null.
Proof.
  destruct r as [txt err msg]; simpl; intros -> Hp.
  run_interpret; split_cases; try congruence; reflexivity.
Qed.

(** An [error] member under hard mode. *)
Lemma interpret_api_error_hard v r o e j :
  Json_parse (text r) = Returned j -> Json_count j "error" <> 0 ->
  OpenAI.throw_exception_ o = true ->
  outcome (interpret v r o e) =
  Raised (if is_error r then error_message r else api_reason j).
Proof.
  destruct r as [txt err msg]; simpl; intros Hp Hc Hth.
  apply Nat.eqb_neq in Hc.
  run_interpret; rewrite Hp; run_interpret; split_cases; try congruence;
    reflexivity.
Qed.

(** An [error] member under soft mode. *)
Lemma interpret_api_error_soft v r o e j :
  Json_parse (text r) = Returned j -> Json_count j "error" <> 0 ->
  OpenAI.throw_exception_ o = false ->
  outcome (interpret v r o e) = Returned j /\
  In (reason_line (api_reason j)) (cerr (environment (interpret v r o e))).
Proof.
  destruct r as [txt err msg]; simpl; intros Hp Hc Hth.
  apply Nat.eqb_neq in Hc.
  run_interpret; rewrite Hp; run_interpret; split_cases; try congruence;
    (split; [reflexivity|]); unfold reason_line, api_reason;
    rewrite ?in_app_iff; simpl; tauto.
Qed.

End InterpretFacts.

Section CallFacts.
Context {CL : CurlLib} {JL : JsonLib} {BF : BuildFlags}.

Lemma announced_cerr suffix data o e :
  cerr (announced suffix data o e) = cerr e.
Proof. unfold announced; destruct OPENAI_VERBOSE_OUTPUT; reflexivity. Qed.

Lemma announced_performed suffix data o e :
  performed (announced suffix data o e) = performed e.
Proof. unfold announced; destruct OPENAI_VERBOSE_OUTPUT; reflexivity. Qed.

(** A whole [get]/[post], by the result of the transfer and the flag of the
    session. *)
Lemma facade_run v suffix data net o e :
  facade v suffix data net o e =
  if Z.eqb (result net) CURLE_OK
  then interpret v (mkResponse (received net) false "")
                 (landed v suffix data net o) (dispatched v suffix data o e)
  else if Session.throw_exception_ (OpenAI.session_ o)
       then (Raised (failure_text net), landed v suffix data net o,
             dispatched v suffix data o e)
       else interpret v (mkResponse (received net) true (failure_text net))
                      (landed v suffix data net o)
                      (complained (session_line net)
                                  (dispatched v suffix data o e)).
Proof.
  rewrite facade_transport_interpret.
  unfold bind at 1. rewrite transport_run, makeRequest_run.
  unfold landed, dispatched, complained, session_line.
  destruct (Z.eqb (result net) CURLE_OK); [reflexivity|].
  replace (Session.throw_exception_ (prepared v suffix data o))
    with (Session.throw_exception_ (OpenAI.session_ o)) by reflexivity.
  destruct (Session.throw_exception_ (OpenAI.session_ o)); reflexivity.
Qed.

(** Every call leaves the facade as [landed] describes, and performs exactly
    one transfer. *)
Lemma facade_object v suffix data net o e :
  object (facade v suffix data net o e) = landed v suffix data net o.
Proof.
  rewrite facade_run.
  destruct (Z.eqb (result net) CURLE_OK);
    [| destruct (Session.throw_exception_ (OpenAI.session_ o)) ];
    try apply interpret_object; reflexivity.
Qed.

Lemma facade_performed v suffix data net o e :
  performed (environment (facade v suffix data net o e)) =
  (performed e ++ [request_handle (prepared v suffix data o)])%list.
Proof.
  rewrite facade_run.
  destruct (Z.eqb (result net) CURLE_OK);
    [| destruct (Session.throw_exception_ (OpenAI.session_ o)) ];
    rewrite ?interpret_performed; unfold dispatched; simpl;
    rewrite announced_performed; reflexivity.
Qed.

End CallFacts.

(** ** Request URLs of the category wrappers *)

Lemma append_nil_r (s : string) : s ++ "" = s.
Proof. induction s as [|c s IH]; simpl; [reflexivity | now rewrite IH]. Qed.

Lemma append_assoc (a b c : string) : (a ++ b) ++ c = a ++ (b ++ c).
Proof. induction a as [|x a IH]; simpl; [reflexivity | now rewrite IH]. Qed.

Section UrlFacts.
Context {CL : CurlLib} {JL : JsonLib} {BF : BuildFlags}.

(** The suffix an operation passes to [get]/[post], read off the code. *)
Lemma invoke_facade (op : Operation) :
  exists v data,
    forall net,
      invoke op net =
      facade v (fill (path_parameter op) (spec_template op)) data net.
Proof.
  destruct op; simpl;
    unfold CategoryModel_list, CategoryModel_retrieve,
      CategoryCompletion_create, CategoryEdit_create, CategoryImage_create,
      CategoryImage_edit, CategoryImage_variation, CategoryEmbedding_create,
      CategoryFile_list, CategoryFile_upload, CategoryFile_retrieve,
      CategoryFile_content, CategoryFineTune_create, CategoryFineTune_list,
      CategoryFineTune_retrieve, CategoryFineTune_content,
      CategoryFineTune_cancel, CategoryFineTune_events,
      CategoryModeration_create, OpenAI.post_json;
    rewrite ?append_nil_r;
    first [ exists GET, ""; intros net; reflexivity
          | eexists POST, _; intros net; reflexivity ].
Qed.

(** C3.  For every operation of every category wrapper, the call performs
    one transfer, and the URL the session holds and hands to that transfer
    is [base_url] followed by the operation's suffix of the specification's
    table, its [{id}] replaced by the path parameter; nothing else. *)
Theorem category_request_url (op : Operation) (net : Transfer)
    (o : OpenAI.t) (e : Env) :
  let done := invoke op net o e in
  exists c,
    performed (environment done) = (performed e ++ [c])%list /\
    CURLOPT_URL c = Some (spec_url (OpenAI.base_url o) op) /\
    Session.url_ (OpenAI.session_ (object done)) =
      spec_url (OpenAI.base_url o) op.
Proof.
  destruct (invoke_facade op) as (v & data & Hop).
  cbv zeta; rewrite Hop, facade_performed, facade_object.
  eexists; split; [reflexivity|]. split; reflexivity.
Qed.

End UrlFacts.

(** ** The error mode along a sequence of calls *)

Section ModeFacts.
Context {CL : CurlLib} {JL : JsonLib} {BF : BuildFlags}.

Lemma new_flags token organization b :
  flags (OpenAI.new token organization b) = (b, b).
Proof. reflexivity. Qed.

Lemma object_then_ret {S A : Type} (m : M S A) (s : S) (e : Env) :
  object ((m ;; ret tt) s e) = object (m s e).
Proof.
  unfold bind, ret, object; destruct (m s e) as [[[a|w] s'] e'];
    reflexivity.
Qed.

Lemma facade_flags v suffix data net o e :
  flags (object (facade v suffix data net o e)) = flags o.
Proof. rewrite facade_object; reflexivity. Qed.

Lemma run_call_flags (c : Call) (o : OpenAI.t) (e : Env) :
  changes_error_mode c = false ->
  flags (object (run_call c o e)) = flags o.
Proof.
  destruct c as [url|url|b|suffix data net|suffix data net|op net];
    simpl; intros Hc; try discriminate; try reflexivity.
  - rewrite object_then_ret.
    apply (facade_flags GET).
  - rewrite object_then_ret.
    apply (facade_flags POST).
  - rewrite object_then_ret.
    destruct (invoke_facade op) as (v & data & Hop).
    rewrite Hop; apply facade_flags.
Qed.

Lemma after_flags (history : list Call) :
  forallb (fun c => negb (changes_error_mode c)) history = true ->
  forall o e, flags (fst (after history o e)) = flags o.
Proof.
  induction history as [|c rest IH]; simpl; intros Hmode o e;
    [reflexivity|].
  apply andb_true_iff in Hmode as [Hc Hrest].
  apply negb_true_iff in Hc.
  pose proof (run_call_flags c o e Hc) as Hstep.
  destruct (run_call c o e) as [[r o'] e']; simpl in Hstep.
  rewrite IH by assumption. exact Hstep.
Qed.

(** No call reaches the session's copy of the flag: it is the mode the
    facade was constructed with, for good. *)
Lemma run_call_session_flag (c : Call) (o : OpenAI.t) (e : Env) :
  snd (flags (object (run_call c o e))) = snd (flags o).
Proof.
  destruct c as [url|url|b|suffix data net|suffix data net|op net];
    cbn [run_call]; try reflexivity; rewrite object_then_ret.
  - exact (f_equal snd (facade_flags GET suffix data net o e)).
  - exact (f_equal snd (facade_flags POST suffix data net o e)).
  - destruct (invoke_facade op) as (v & data & Hop).
    now rewrite Hop, facade_flags.
Qed.

Lemma after_session_flag (history : list Call) (o : OpenAI.t) (e : Env) :
  snd (flags (fst (after history o e))) = snd (flags o).
Proof.
  revert o e; induction history as [|c rest IH]; intros o e;
    cbn [after]; [reflexivity|].
  pose proof (run_call_session_flag c o e) as Hstep.
  destruct (run_call c o e) as [[r o'] e']; unfold object in Hstep;
    cbn [fst snd] in Hstep.
  rewrite IH; exact Hstep.
Qed.

(** Where the transport policy is followed.  A facade is constructed with
    error mode [b] and then used in any way.  If the transport reports an
    error on a [get] or [post]: when the facade is in hard mode the call
    raises, with the transport's message; when it is in soft mode and was
    constructed so, the call returns, and [cerr] has received the session's
    diagnostic followed by the facade's.  The state this leaves out, soft
    by [set_throw_exception] after a hard construction, is the one where
    the policy is not followed. *)
Theorem transport_error_follows_mode
    (token organization : string) (b : bool) (history : list Call)
    (e0 : Env) (v : Verb) (suffix data : string)
    (net : Transfer) :
  result net <> CURLE_OK ->
  let o := fst (after history (OpenAI.new token organization b) e0) in
  let e := snd (after history (OpenAI.new token organization b) e0) in
  let call := facade v suffix data net o e in
  (OpenAI.throw_exception_ o = true ->
   outcome call = Raised (failure_text net)) /\
  (OpenAI.throw_exception_ o = false -> b = false ->
   returns call /\
   emitted (cerr e) (cerr (environment call))
           [session_line net; reason_line (failure_text net)]).
Proof.
  intros Hnet o e call.
  pose proof (after_session_flag history
                (OpenAI.new token organization b) e0) as Hsession.
  fold o in Hsession. cbn in Hsession.
  apply Z.eqb_neq in Hnet.
  subst call; rewrite facade_run, Hnet, Hsession.
  split.
  - intros Hfacade. destruct b; [reflexivity|].
    rewrite interpret_transport_error_hard; [reflexivity..|exact Hfacade].
  - intros Hfacade ->.
    assert (Hsoft : OpenAI.throw_exception_ (landed v suffix data net o)
                    = false) by exact Hfacade.
    destruct (interpret_soft v
                (mkResponse (received net) true (failure_text net))
                (landed v suffix data net o)
                (complained (session_line net)
                            (dispatched v suffix data o e))
                Hsoft) as [Hret Hdiag].
    split; [exact Hret|].
    destruct (Hdiag eq_refl) as [rest Hrest].
    exists rest. rewrite Hrest. simpl. rewrite announced_cerr.
    rewrite <- app_assoc. reflexivity.
Qed.

End ModeFacts.

(** ** API errors and malformed answers *)

Section ResponseFacts.
Context {CL : CurlLib} {JL : JsonLib} {BF : BuildFlags}.

(** The session call does not touch the facade's own flag. *)
Lemma transport_keeps_mode v suffix data net o e r o1 e1 :
  transport v suffix data net o e = (r, o1, e1) ->
  OpenAI.throw_exception_ o1 = OpenAI.throw_exception_ o.
Proof.
  rewrite transport_run.
  destruct (Session.makeRequest net (prepared v suffix data o)
              (announced suffix data o e)) as [[r' s'] e'].
  intros Heq; injection Heq as _ <- _; reflexivity.
Qed.

Lemma facade_after_transport v suffix data net o e response o1 e1 :
  transport v suffix data net o e = (Returned response, o1, e1) ->
  facade v suffix data net o e = interpret v response o1 e1.
Proof.
  intros Ht. rewrite facade_transport_interpret.
  unfold bind at 1. rewrite Ht. reflexivity.
Qed.

(** When the transfer succeeded, the session returns what was received. *)
Lemma transport_ok v suffix data net o e :
  result net = CURLE_OK ->
  transport v suffix data net o e =
  (Returned (mkResponse (received net) false ""),
   landed v suffix data net o, dispatched v suffix data o e).
Proof.
  intros Hok. apply Z.eqb_eq in Hok.
  rewrite transport_run, makeRequest_run, Hok. reflexivity.
Qed.

(** C4.  The session has returned the response of a [get] or [post], its
    text parses as JSON and the parsed value has an [error] member.  Then
    the call goes through [trigger_error], as it does for a transport
    failure: with the facade's flag set the call raises; with the flag
    clear it returns and the reason is written to [cerr]. *)
Theorem api_error_follows_mode
    (v : Verb) (suffix data : string) (net : Transfer)
    (o : OpenAI.t) (e : Env)
    (response : Response) (o1 : OpenAI.t) (e1 : Env) (j : Json) :
  transport v suffix data net o e = (Returned response, o1, e1) ->
  Json_parse (text response) = Returned j ->
  Json_count j "error" <> 0 ->
  let call := facade v suffix data net o e in
  (OpenAI.throw_exception_ o = true ->
   outcome call =
   Raised (if is_error response then error_message response
           else api_reason j)) /\
  (OpenAI.throw_exception_ o = false ->
   returns call /\
   In (reason_line (api_reason j)) (cerr (environment call))).
Proof.
  intros Ht Hp Hc call.
  pose proof (transport_keeps_mode _ _ _ _ _ _ _ _ _ Ht) as Hmode.
  subst call; rewrite (facade_after_transport _ _ _ _ _ _ _ _ _ Ht).
  split; intros Hflag; rewrite <- Hmode in Hflag.
  - apply interpret_api_error_hard; assumption.
  - destruct (interpret_api_error_soft v response o1 e1 j Hp Hc Hflag)
      as [Hout Hin].
    split; [exists j; exact Hout | exact Hin].
Qed.

(** C5.  The transport reported no error and the text received is not
    JSON: the call returns the empty (null) JSON value, whatever the two
    flags are. *)
Theorem malformed_response_never_raises
    (v : Verb) (suffix data : string) (net : Transfer)
    (o : OpenAI.t) (e : Env) (w : string) :
  result net = CURLE_OK ->
  Json_parse (received net) = Raised w ->
  outcome (facade v suffix data net o e) = Returned Json_null.
Proof.
  intros Hok Hp.
  rewrite (facade_after_transport _ _ _ _ _ _ _ _ _
             (transport_ok v suffix data net o e Hok)).
  apply (interpret_not_json _ _ _ _ w); [reflexivity | exact Hp].
Qed.

(** C9.  Soft mode: when the response the session returned parses as JSON
    with an [error] member, the call returns that parsed value itself. *)
Theorem soft_api_error_returns_payload
    (v : Verb) (suffix data : string) (net : Transfer)
    (o : OpenAI.t) (e : Env)
    (response : Response) (o1 : OpenAI.t) (e1 : Env) (j : Json) :
  OpenAI.throw_exception_ o = false ->
  transport v suffix data net o e = (Returned response, o1, e1) ->
  Json_parse (text response) = Returned j ->
  Json_count j "error" <> 0 ->
  exists payload,
    outcome (facade v suffix data net o e) = Returned payload /\
    payload = j /\ Json_count payload "error" <> 0.
Proof.
  intros Hflag Ht Hp Hc.
  pose proof (transport_keeps_mode _ _ _ _ _ _ _ _ _ Ht) as Hmode.
  rewrite <- Hmode in Hflag.
  rewrite (facade_after_transport _ _ _ _ _ _ _ _ _ Ht).
  exists j. split; [|split; [reflexivity | exact Hc]].
  apply (interpret_api_error_soft v response o1 e1 j Hp Hc Hflag).
Qed.

End ResponseFacts.

(** ** Request headers *)

Section HeaderFacts.
Context {CL : CurlLib}.

Lemma session_call_performed v net s e :
  performed (environment (session_call v net s e)) =
  (performed e ++
   [request_handle (match v with
                    | GET => Session.with_curl setopt_HTTPGET s
                    | POST => s
                    end)])%list.
Proof.
  destruct v; unfold session_call, Session.get, Session.post;
    [unfold bind at 1, modify|]; rewrite makeRequest_run;
    destruct (Z.eqb (result net) CURLE_OK); try reflexivity;
    cbn [Session.throw_exception_ Session.with_curl];
    destruct (Session.throw_exception_ s); reflexivity.
Qed.

(** The headers of a request, by the fields of the session that issues it:
    [Content-Type: application/json] and [Authorization: Bearer token_],
    followed by [OpenAI-Organization: organization_] exactly when
    [organization_] is not empty. *)
Theorem request_headers (v : Verb) (net : Transfer)
    (s : Session.t) (e : Env) :
  exists c,
    performed (environment (session_call v net s e))
      = (performed e ++ [c])%list /\
    In content_type_header (CURLOPT_HTTPHEADER c) /\
    In (authorization_header (Session.token_ s)) (CURLOPT_HTTPHEADER c) /\
    (In (organization_header (Session.organization_ s))
        (CURLOPT_HTTPHEADER c)
     <-> Session.organization_ s <> "") /\
    (Session.organization_ s = "" ->
     CURLOPT_HTTPHEADER c =
       [content_type_header; authorization_header (Session.token_ s)]) /\
    (Session.organization_ s <> "" ->
     CURLOPT_HTTPHEADER c =
       [content_type_header; authorization_header (Session.token_ s);
        organization_header (Session.organization_ s)]).
Proof.
  rewrite session_call_performed. eexists; split; [reflexivity|].
  assert (Hh : CURLOPT_HTTPHEADER
                 (request_handle
                    (match v with
                     | GET => Session.with_curl setopt_HTTPGET s
                     | POST => s
                     end)) = Session.headers s)
    by (destruct v; reflexivity).
  rewrite Hh. unfold Session.headers, content_type_header,
    authorization_header, organization_header.
  destruct (Session.organization_ s) as [|c org]; cbn [empty negb app].
  - repeat split; try (simpl; tauto); try congruence.
    intros [H|[H|[]]]; discriminate H.
  - repeat split; try (simpl; tauto); try congruence.
Qed.

End HeaderFacts.

(** *** The headers and [setToken] *)

Section SetTokenFacts.
Context {CL : CurlLib}.

Lemma session_after_app (a b : list SessionCall) (s : Session.t) (e : Env) :
  session_after (a ++ b) s e =
  session_after b (fst (session_after a s e)) (snd (session_after a s e)).
Proof.
  revert s e; induction a as [|c a IH]; intros s e; cbn [app session_after];
    [reflexivity|].
  destruct (run_session_call c s e) as [[r s'] e']. apply IH.
Qed.

(** Only [setToken] writes the credentials of a session. *)
Lemma run_session_call_credentials (c : SessionCall) (s : Session.t)
    (e : Env) :
  sets_token c = false ->
  session_credentials (object (run_session_call c s e))
  = session_credentials s.
Proof.
  destruct c as [url|token organization|url|data|net|net];
    cbn [sets_token run_session_call]; intros Hc;
    try discriminate; try reflexivity;
    rewrite object_then_ret.
  - unfold Session.get, modify. unfold bind at 1.
    rewrite makeRequest_run.
    destruct (Z.eqb (result net) CURLE_OK);
      [| destruct (Session.throw_exception_ _) ]; reflexivity.
  - unfold Session.post. rewrite makeRequest_run.
    destruct (Z.eqb (result net) CURLE_OK);
      [| destruct (Session.throw_exception_ _) ]; reflexivity.
Qed.

Lemma session_after_credentials (history : list SessionCall)
    (s : Session.t) (e : Env) :
  forallb (fun c => negb (sets_token c)) history = true ->
  session_credentials (fst (session_after history s e))
  = session_credentials s.
Proof.
  revert s e; induction history as [|c rest IH]; intros s e Hno;
    cbn [session_after]; [reflexivity|].
  cbn [forallb] in Hno. apply andb_true_iff in Hno as [Hc Hrest].
  apply negb_true_iff in Hc.
  pose proof (run_session_call_credentials c s e Hc) as Hstep.
  destruct (run_session_call c s e) as [[r s'] e']; unfold object in Hstep;
    cbn [fst snd] in Hstep.
  rewrite IH by exact Hrest. exact Hstep.
Qed.

(** C6.  A session, in any state and after any earlier calls, is given its
    credentials by [setToken(token, organization)]; it is then used in any
    way that does not call [setToken] again.  Every request it issues from
    then on is performed with the headers [Content-Type: application/json]
    and [Authorization: Bearer <token>], and with
    [OpenAI-Organization: <organization>] exactly when the organization
    that was set is not empty: set to the empty string, the header list is
    the first two alone. *)
Theorem headers_follow_setToken
    (s0 : Session.t) (e0 : Env) (before later : list SessionCall)
    (token organization : string) (v : Verb) (net : Transfer) :
  forallb (fun c => negb (sets_token c)) later = true ->
  let reached :=
    session_after (before ++ s_setToken token organization :: later)
                  s0 e0 in
  let s := fst reached in
  let e := snd reached in
  exists c,
    performed (environment (session_call v net s e))
      = (performed e ++ [c])%list /\
    In content_type_header (CURLOPT_HTTPHEADER c) /\
    In (authorization_header token) (CURLOPT_HTTPHEADER c) /\
    (In (organization_header organization) (CURLOPT_HTTPHEADER c)
     <-> organization <> "") /\
    (organization = "" ->
     CURLOPT_HTTPHEADER c =
       [content_type_header; authorization_header token]) /\
    (organization <> "" ->
     CURLOPT_HTTPHEADER c =
       [content_type_header; authorization_header token;
        organization_header organization]).
Proof.
  intros Hlater reached s e.
  assert (Hset : session_credentials s = (token, organization)).
  { subst s reached. rewrite session_after_app.
    cbn [session_after run_session_call].
    unfold Session.setToken, modify.
    rewrite session_after_credentials by exact Hlater. reflexivity. }
  unfold session_credentials in Hset. injection Hset as Htoken Horg.
  destruct (request_headers v net s e) as (c & Hsent & Hct & Hauth & Horgh
                                           & Hnone & Hsome).
  rewrite Htoken, Horg in *.
  exists c. repeat split; try assumption; apply Horgh.
Qed.

End SetTokenFacts.

(** The credentials of a facade are those given to its constructor, in its
    fields and in its session, whatever is called on it afterwards; so the
    headers of its requests carry the constructor's token and
    organization. *)
Section CredentialFacts.
Context {CL : CurlLib} {JL : JsonLib} {BF : BuildFlags}.

Lemma run_call_credentials (c : Call) (o : OpenAI.t) (e : Env) :
  credentials (object (run_call c o e)) = credentials o.
Proof.
  destruct c as [url|url|b|suffix data net|suffix data net|op net];
    simpl; try reflexivity; rewrite object_then_ret.
  - change (OpenAI.get suffix data net)
      with (facade GET suffix data net).
    rewrite facade_object; reflexivity.
  - change (OpenAI.post suffix data net)
      with (facade POST suffix data net).
    rewrite facade_object; reflexivity.
  - destruct (invoke_facade op) as (v & data & Hop).
    rewrite Hop, facade_object; reflexivity.
Qed.

Lemma after_credentials (history : list Call) (o : OpenAI.t) (e : Env) :
  credentials (fst (after history o e)) = credentials o.
Proof.
  revert o e; induction history as [|c rest IH]; intros o e; simpl;
    [reflexivity|].
  pose proof (run_call_credentials c o e) as Hstep.
  destruct (run_call c o e) as [[r o'] e']; simpl in Hstep.
  rewrite IH; exact Hstep.
Qed.

(** X18.  After any sequence of calls on a facade, each request it makes
    carries the token and the organization given to its constructor:
    [Authorization: Bearer <token>], and [OpenAI-Organization: <org>] when
    that organization is not empty.  Nothing a caller can call changes
    them. *)
Lemma facade_request_credentials (token organization : string) (b : bool)
    (history : list Call) (e0 : Env) (v : Verb)
    (suffix data : string) (net : Transfer) :
  let o := fst (after history (OpenAI.new token organization b) e0) in
  let e := snd (after history (OpenAI.new token organization b) e0) in
  exists c,
    performed (environment (facade v suffix data net o e))
      = (performed e ++ [c])%list /\
    CURLOPT_HTTPHEADER c =
      ([content_type_header; authorization_header token]
       ++ if empty organization then []
          else [organization_header organization])%list.
Proof.
  intros o e. rewrite facade_performed. eexists; split; [reflexivity|].
  pose proof (after_credentials history (OpenAI.new token organization b) e0)
    as Hid.
  fold o in Hid. unfold credentials in Hid. cbn in Hid.
  injection Hid as _ _ Htoken Horg.
  cbn [request_handle CURLOPT_HTTPHEADER setopt_URL setopt_HTTPHEADER].
  unfold Session.headers.
  replace (Session.token_ (prepared v suffix data o))
    with (Session.token_ (OpenAI.session_ o)) by reflexivity.
  replace (Session.organization_ (prepared v suffix data o))
    with (Session.organization_ (OpenAI.session_ o)) by reflexivity.
  rewrite Htoken, Horg.
  destruct organization; reflexivity.
Qed.

End CredentialFacts.

(** ** The singleton *)

Section SingletonFacts.
Context {CL : CurlLib} {JL : JsonLib} {BF : BuildFlags}.

Lemma configure_run {A : Type} token organization b (use : M OpenAI.t A)
    (st : Statics) (e : Env) :
  configure token organization b use st e =
  (outcome (use (designated token organization b st) e),
   mkStatics (Some (object (use (designated token organization b st) e))),
   environment (use (designated token organization b st) e)).
Proof.
  unfold configure, designated, outcome, object, environment.
  destruct (use _ e) as [[r o'] e']; reflexivity.
Qed.

(** C7.  [configure] is called for the first time in the process, with
    token [t1], and then again with token [t2].  The first call constructs
    the static instance from its own arguments.  The second call designates
    that same object: whatever is done through the reference it returns is
    done to the instance of the first call, its own token, organization and
    error mode are ignored, and the object read through it carries [t1],
    in its fields and in the session that writes the Authorization
    header. *)
Theorem configure_twice_same_instance
    (t1 org1 : string) (b1 : bool) (t2 org2 : string) (b2 : bool)
    (e : Env) :
  let first := configure t1 org1 b1 (ret tt) program_start e in
  let st1 := object first in
  let e1 := environment first in
  configure_instance st1 = Some (OpenAI.new t1 org1 b1) /\
  (forall (A : Type) (use : M OpenAI.t A),
     configure t2 org2 b2 use st1 e1 =
     (outcome (use (OpenAI.new t1 org1 b1) e1),
      mkStatics (Some (object (use (OpenAI.new t1 org1 b1) e1))),
      environment (use (OpenAI.new t1 org1 b1) e1))) /\
  configure t2 org2 b2 (ret tt) st1 e1 = (Returned tt, st1, e1) /\
  outcome (configure t2 org2 b2 (gets identity) st1 e1) =
    Returned (t1, org1, b1, t1, org1).
Proof.
  cbv zeta. rewrite (configure_run t1 org1 b1 (ret tt) program_start e).
  cbn [object environment outcome fst snd ret designated program_start
       configure_instance].
  split; [reflexivity|]. split; [|split].
  - intros A use. rewrite configure_run. reflexivity.
  - reflexivity.
  - reflexivity.
Qed.

Lemma landed_identity v suffix data net o :
  identity (landed v suffix data net o) = identity o /\
  flags (landed v suffix data net o) = flags o.
Proof. split; reflexivity. Qed.

(** C10.  The singleton is first reached without [configure]: through
    [instance()], the free [get] or [post], or a category helper.  The
    instance then constructed has the empty token, the empty organization
    and the throwing mode, and this is what it still is after that first
    use.  Every later [configure], whatever its arguments, leaves the
    statics as they are and designates this instance. *)
Theorem unconfigured_instance_is_kept (u : Unconfigured) (e : Env) :
  let first := first_use u program_start e in
  let st1 := object first in
  let e1 := environment first in
  exists inst,
    configure_instance st1 = Some inst /\
    identity inst = ("", "", true, "", "") /\
    flags inst = (true, true) /\
    forall (token organization : string) (b : bool),
      configure token organization b (ret tt) st1 e1
        = (Returned tt, st1, e1) /\
      forall (A : Type) (use : M OpenAI.t A),
        configure token organization b use st1 e1 =
        (outcome (use inst e1), mkStatics (Some (object (use inst e1))),
         environment (use inst e1)).
Proof.
  cbv zeta.
  assert (Hkept : forall st inst,
            configure_instance st = Some inst ->
            forall e1 (token organization : string) (b : bool),
              configure token organization b (ret tt) st e1
                = (Returned tt, st, e1) /\
              forall (A : Type) (use : M OpenAI.t A),
                configure token organization b use st e1 =
                (outcome (use inst e1),
                 mkStatics (Some (object (use inst e1))),
                 environment (use inst e1))).
  { intros [slot] inst Hslot e1 token organization b; simpl in Hslot.
    subst slot. split; [reflexivity|].
    intros A use. rewrite configure_run. reflexivity. }
  assert (Hstart : forall token organization b,
            designated token organization b program_start
            = OpenAI.new token organization b) by reflexivity.
  destruct u as [|suffix net|suffix json net|op net];
    cbn [first_use]; unfold get, post, category, instance;
    rewrite ?object_then_ret, configure_run, Hstart.
  - exists (OpenAI.new "" "" true).
    split; [reflexivity|]. split; [reflexivity|]. split; [reflexivity|].
    intros; apply Hkept; reflexivity.
  - change (OpenAI.get suffix "" net)
      with (facade GET suffix "" net).
    rewrite facade_object.
    eexists. split; [reflexivity|]. split; [reflexivity|].
    split; [reflexivity|].
    intros; apply Hkept; reflexivity.
  - change (OpenAI.post_json suffix json net)
      with (facade POST suffix (Json_dump json (-1)) net).
    rewrite facade_object.
    eexists. split; [reflexivity|]. split; [reflexivity|].
    split; [reflexivity|].
    intros; apply Hkept; reflexivity.
  - destruct (invoke_facade op) as (v & data & Hop).
    rewrite Hop, facade_object.
    eexists. split; [reflexivity|]. split; [reflexivity|].
    split; [reflexivity|].
    intros; apply Hkept; reflexivity.
Qed.

End SingletonFacts.

(** ** The mutex of the session *)

Module ConcurrentFacts.
Import Concurrent.

Lemma nth_error_update_same {A : Type} (l : list A) (n : nat) (a x : A) :
  nth_error l n = Some x -> nth_error (update n a l) n = Some a.
Proof.
  revert n; induction l as [|y l IH]; intros [|n]; simpl; intros Hn;
    try discriminate; [reflexivity | now apply IH].
Qed.

Lemma nth_error_update_other {A : Type} (l : list A) (n m : nat) (a : A) :
  n <> m -> nth_error (update n a l) m = nth_error l m.
Proof.
  revert n m; induction l as [|y l IH]; intros [|n] [|m] Hnm; simpl;
    try reflexivity; [congruence | apply IH; congruence].
Qed.

Lemma nth_error_update {A : Type} (l : list A) (n m : nat) (a x p : A) :
  nth_error l n = Some x ->
  nth_error (update n a l) m = Some p ->
  (m = n /\ p = a) \/ (m <> n /\ nth_error l m = Some p).
Proof.
  intros Hn Hm. destruct (Nat.eq_dec m n) as [->|Hne].
  - rewrite (nth_error_update_same l n a x Hn) in Hm.
    injection Hm as <-. left; split; reflexivity.
  - rewrite nth_error_update_other in Hm by congruence.
    right; split; assumption.
Qed.

Lemma bracketed_code base r p :
  bracketed false (code base r ++ p) = bracketed false p.
Proof. unfold code; destruct (verb r); reflexivity. Qed.

Lemma bracketed_program base calls :
  bracketed false (program base calls) = true.
Proof.
  unfold program; induction calls as [|r calls IH]; cbn [flat_map];
    [reflexivity | now rewrite bracketed_code].
Qed.

Lemma start_invariant s base calls : lock_invariant (start s base calls).
Proof.
  intros t p Hp; unfold start, holds in *; simpl in *.
  apply nth_error_In, in_map_iff in Hp as (cs & <- & _).
  apply bracketed_program.
Qed.

(** Replacing the program of thread [t] and the holder keeps the invariant
    when [t]'s new program fits the new holder and no other thread's
    holding changes. *)
Lemma invariant_update st t x rest s m w :
  lock_invariant st ->
  nth_error (threads st) t = Some x ->
  bracketed (holder_is m t) rest = true ->
  (forall t', t' <> t -> holder_is m t' = holds st t') ->
  lock_invariant (mkState s m (update t rest (threads st)) w).
Proof.
  intros Inv Ht Hrest Hothers t' p Hp. unfold holds in *; simpl in *.
  destruct (nth_error_update _ _ _ _ _ _ Ht Hp) as [[-> ->]|[Hne Hold]].
  - exact Hrest.
  - rewrite Hothers by exact Hne. apply Inv; exact Hold.
Qed.

(** Every step keeps the invariant. *)
Lemma step_invariant t st st' :
  lock_invariant st -> step t st = Some st' -> lock_invariant st'.
Proof.
  intros Inv Hstep. unfold step in Hstep.
  destruct (nth_error (threads st) t) as [[|i rest]|] eqn:Ht;
    try discriminate.
  pose proof (Inv t _ Ht) as Hb. unfold holds in Hb.
  destruct i; cbn [bracketed] in Hb.
  - (* setUrl *)
    injection Hstep as <-. apply andb_true_iff in Hb as [Hh Hb].
    apply negb_true_iff in Hh.
    eapply invariant_update; eauto. now rewrite Hh.
  - (* setBody *)
    injection Hstep as <-. apply andb_true_iff in Hb as [Hh Hb].
    apply negb_true_iff in Hh.
    eapply invariant_update; eauto. now rewrite Hh.
  - (* httpget *)
    injection Hstep as <-. apply andb_true_iff in Hb as [Hh Hb].
    apply negb_true_iff in Hh.
    eapply invariant_update; eauto. now rewrite Hh.
  - (* lock *)
    destruct (mutex_request_ st) as [h|] eqn:Hm; [discriminate|].
    injection Hstep as <-. simpl in Hb.
    eapply invariant_update; eauto.
    + simpl. now rewrite Nat.eqb_refl.
    + intros t' Hne. unfold holds. rewrite Hm. simpl.
      apply Nat.eqb_neq. congruence.
  - (* options *)
    injection Hstep as <-. apply andb_true_iff in Hb as [Hh Hb].
    eapply invariant_update; eauto. now rewrite Hh.
  - (* perform *)
    injection Hstep as <-. apply andb_true_iff in Hb as [Hh Hb].
    eapply invariant_update; eauto. now rewrite Hh.
  - (* unlock *)
    injection Hstep as <-. apply andb_true_iff in Hb as [Hh Hb].
    eapply invariant_update; eauto.
    intros t' Hne. unfold holds.
    destruct (mutex_request_ st) as [h|]; [|reflexivity].
    simpl in *. apply Nat.eqb_eq in Hh. subst h.
    symmetry. apply Nat.eqb_neq. congruence.
Qed.

Lemma run_invariant schedule st :
  lock_invariant st -> lock_invariant (run schedule st).
Proof.
  revert st; induction schedule as [|t rest IH]; intros st Inv; simpl;
    [exact Inv|].
  destruct (step t st) as [st'|] eqn:Hstep; apply IH;
    [eapply step_invariant; eassumption | exact Inv].
Qed.

(** Only the holder of the mutex is in the request-execution path. *)
Lemma executing_holds st t :
  lock_invariant st -> executing st t = true ->
  mutex_request_ st = Some t.
Proof.
  intros Inv Hex. unfold executing in Hex.
  destruct (nth_error (threads st) t) as [[|i rest]|] eqn:Ht;
    try discriminate.
  pose proof (Inv t _ Ht) as Hb. unfold holds in Hb.
  destruct (mutex_request_ st) as [h|];
    destruct i; try discriminate; simpl in Hb;
    apply andb_true_iff in Hb as [Hh _]; try discriminate;
    apply Nat.eqb_eq in Hh; now subst.
Qed.

(** C8, as amended.  Any number of threads run any number of [get]/[post]
    calls on one session, interleaved in any way: at every moment at most
    one thread is in the request-execution path, the part of [makeRequest]
    that the mutex guards. *)
Theorem mutual_exclusion (s : Session.t) (base : string)
    (calls : list (list Request)) (schedule : list nat) (t1 t2 : nat) :
  let st := run schedule (start s base calls) in
  executing st t1 = true -> executing st t2 = true -> t1 = t2.
Proof.
  intros st H1 H2.
  assert (Inv : lock_invariant st)
    by (apply run_invariant, start_invariant).
  apply (executing_holds st t1 Inv) in H1.
  apply (executing_holds st t2 Inv) in H2.
  congruence.
Qed.

(** A thread that runs alone performs the transfer the sequential [get] or
    [post] performs, and leaves the session as they do. *)
Lemma alone_agrees (v : Verb) (suffix data : string) (net : Transfer)
    (o : OpenAI.t) :
  let st := run (repeat 0 7)
                (start (OpenAI.session_ o) (OpenAI.base_url o)
                       [[mkRequest v suffix data net]]) in
  wire st = [(0, request_handle (prepared v suffix data o))] /\
  session st = OpenAI.session_ (landed v suffix data net o) /\
  mutex_request_ st = None /\
  threads st = [[]].
Proof. destruct v; repeat split; reflexivity. Qed.

End ConcurrentFacts.

(** ** The model at concrete inputs *)

Module Examples.
Import Concurrent.
Import Scenario.

#[local] Existing Instance Sample.curl.
#[local] Existing Instance Sample.json.
#[local] Existing Instance Sample.quiet.

Example parse_error_text :
  Sample.parse Sample.error_text = Returned error_payload.
Proof. reflexivity. Qed.

Example parse_html_text : Sample.parse Sample.html_text = Raised "parse_error".
Proof. reflexivity. Qed.

Example dump_parse_error_text :
  Sample.dump error_payload = Sample.error_text.
Proof. reflexivity. Qed.

(** A soft client and an API error: the payload is returned, one line goes
    to [cerr], and the request went out with the three headers. *)
Example soft_client_api_error :
  facade GET "models" "" error_answer soft_client quiet_env =
  (Returned error_payload,
   landed GET "models" "" error_answer soft_client,
   mkEnv [reason_line (Sample.dump (Sample.index error_payload "error"))]
         []
         [mkCURL None (Some "") HTTP_GET
                 ["Content-Type: application/json";
                  "Authorization: Bearer sk-test";
                  "OpenAI-Organization: org-1"]
                 (Some "https://api.openai.com/v1/models")]).
Proof. reflexivity. Qed.

(** A throwing client and a failed transfer. *)
Example hard_client_transport_error :
  outcome (facade POST "completions" "{}" Sample.could_not_connect shared
                  quiet_env)
  = Raised "curl_easy_perform() failed Couldn't connect to server".
Proof. reflexivity. Qed.

Example overtaking_wire :
  map (fun tc => (fst tc, CURLOPT_URL (snd tc)))
      (wire (run overtaking
                 (start (OpenAI.session_ shared) (OpenAI.base_url shared)
                        two_callers)))
  = [(0, Some "https://api.openai.com/v1/files")].
Proof. reflexivity. Qed.

(** C8, as stated, fails: in the run [overtaking] the transfer of thread 0,
    whose call is [get("models")], goes to the URL that thread 1 wrote into
    the session before thread 0 took the mutex. *)
Lemma configuration_overwritten :
  ~ own_configuration (OpenAI.base_url shared) two_callers
      (run overtaking
           (start (OpenAI.session_ shared) (OpenAI.base_url shared)
                  two_callers)).
Proof.
  intros Hown.
  destruct (Hown 0 _ (or_introl eq_refl)) as (mine & r & Hmine & Hr & Hurl).
  injection Hmine as <-.
  destruct Hr as [<-|[]].
  discriminate Hurl.
Qed.

(** C2, at the failing input: a facade constructed in throwing mode is
    switched to soft mode by [set_throw_exception(false)]; the facade's flag
    is cleared, the session's is not, and a [get] whose transfer fails still
    raises. *)
Theorem set_throw_exception_misses_session :
  let switched :=
    after [do_set_throw_exception false] (OpenAI.new "sk-test" "" true)
          quiet_env in
  flags (fst switched) = (false, true) /\
  outcome (facade GET "models" "" Sample.could_not_connect
                  (fst switched) (snd switched))
  = Raised "curl_easy_perform() failed Couldn't connect to server".
Proof. split; reflexivity. Qed.

(** C1, at the failing input: the facade was constructed in throwing mode
    and switched by [set_throw_exception(false)], so its error mode is
    soft.  The transport reports an error on a [post]: the call raises, and
    no diagnostic has been written. *)
Theorem soft_mode_transport_error_raises :
  OpenAI.throw_exception_ switched_client = false /\
  facade POST "completions" "{}" unresolved_host switched_client quiet_env
  = (Raised "curl_easy_perform() failed Couldn't resolve host name",
     landed POST "completions" "{}" unresolved_host switched_client,
     mkEnv [] []
           [mkCURL None (Some "{}") HTTP_POST
                   ["Content-Type: application/json";
                    "Authorization: Bearer sk-test"]
                   (Some "https://api.openai.com/v1/completions")]).
Proof. split; reflexivity. Qed.

(** The same switch does reach API errors: the payload comes back and the
    reason goes to [cerr]. *)
Example set_throw_exception_reaches_api_errors :
  let switched :=
    after [do_set_throw_exception false] (OpenAI.new "sk-test" "" true)
          quiet_env in
  let call := facade GET "models" "" (Sample.answered Sample.error_text)
                     (fst switched) (snd switched) in
  returns call /\ length (cerr (environment call)) = 1.
Proof. split; [eexists|]; reflexivity. Qed.

(** *** The theorems with hypotheses, at inputs that meet them *)

Lemma transport_error_follows_mode_witness :
  result Sample.could_not_connect <> CURLE_OK /\
  OpenAI.throw_exception_
    (fst (after earlier_calls (OpenAI.new "sk-test" "" false) quiet_env))
    = false /\
  false = false /\
  (let o := fst (after earlier_calls (OpenAI.new "sk-test" "" false)
                       quiet_env) in
   let e := snd (after earlier_calls (OpenAI.new "sk-test" "" false)
                       quiet_env) in
   let call := facade POST "completions" "{}" Sample.could_not_connect o e in
   returns call /\
   emitted (cerr e) (cerr (environment call))
           [session_line Sample.could_not_connect;
            reason_line (failure_text Sample.could_not_connect)]).
Proof.
  split; [discriminate|]. split; [reflexivity|]. split; [reflexivity|].
  apply (transport_error_follows_mode "sk-test" "" false earlier_calls
           quiet_env POST "completions" "{}" Sample.could_not_connect);
    [discriminate | reflexivity | reflexivity].
Defined.

Lemma api_error_follows_mode_witness :
  transport GET "models" "" error_answer soft_client quiet_env
    = (Returned (mkResponse Sample.error_text false ""),
       landed GET "models" "" error_answer soft_client,
       dispatched GET "models" "" soft_client quiet_env) /\
  Json_parse Sample.error_text = Returned error_payload /\
  Json_count error_payload "error" <> 0 /\
  (let call := facade GET "models" "" error_answer soft_client quiet_env in
   (OpenAI.throw_exception_ soft_client = true ->
    outcome call = Raised (api_reason error_payload)) /\
   (OpenAI.throw_exception_ soft_client = false ->
    returns call /\
    In (reason_line (api_reason error_payload))
       (cerr (environment call)))).
Proof.
  split; [reflexivity|]. split; [reflexivity|]. split; [discriminate|].
  apply (api_error_follows_mode GET "models" "" error_answer soft_client
           quiet_env (mkResponse Sample.error_text false "")
           (landed GET "models" "" error_answer soft_client)
           (dispatched GET "models" "" soft_client quiet_env)
           error_payload);
    [reflexivity | reflexivity | discriminate].
Defined.

Lemma malformed_response_never_raises_witness :
  result (Sample.answered Sample.html_text) = CURLE_OK /\
  Json_parse (received (Sample.answered Sample.html_text))
    = Raised "parse_error" /\
  outcome (facade GET "models" "" (Sample.answered Sample.html_text)
                  shared quiet_env)
    = Returned Json_null.
Proof.
  split; [reflexivity|]. split; [reflexivity|].
  apply (malformed_response_never_raises GET "models" ""
           (Sample.answered Sample.html_text) shared quiet_env
           "parse_error"); reflexivity.
Defined.

Lemma soft_api_error_returns_payload_witness :
  OpenAI.throw_exception_ soft_client = false /\
  transport POST "completions" "{}" error_answer soft_client quiet_env
    = (Returned (mkResponse Sample.error_text false ""),
       landed POST "completions" "{}" error_answer soft_client,
       dispatched POST "completions" "{}" soft_client quiet_env) /\
  Json_parse Sample.error_text = Returned error_payload /\
  Json_count error_payload "error" <> 0 /\
  (exists payload,
     outcome (facade POST "completions" "{}" error_answer soft_client
                     quiet_env) = Returned payload /\
     payload = error_payload /\ Json_count payload "error" <> 0).
Proof.
  split; [reflexivity|]. split; [reflexivity|]. split; [reflexivity|].
  split; [discriminate|].
  apply (soft_api_error_returns_payload POST "completions" "{}" error_answer
           soft_client quiet_env (mkResponse Sample.error_text false "")
           (landed POST "completions" "{}" error_answer soft_client)
           (dispatched POST "completions" "{}" soft_client quiet_env)
           error_payload);
    [reflexivity | reflexivity | reflexivity | discriminate].
Defined.

Lemma mutual_exclusion_witness :
  executing thread0_inside 0 = true /\
  executing thread0_inside 0 = true /\
  0 = 0.
Proof.
  split; [reflexivity|]. split; [reflexivity|].
  apply (ConcurrentFacts.mutual_exclusion (OpenAI.session_ shared)
           (OpenAI.base_url shared) two_callers [0; 0; 0; 1; 0] 0 0);
    reflexivity.
Defined.

Lemma headers_follow_setToken_witness :
  forallb (fun c => negb (sets_token c)) after_setting = true /\
  (let reached :=
     session_after
       (before_setting ++ s_setToken "sk-test" "org-1" :: after_setting)
       (Session.new false) quiet_env in
   let s := fst reached in
   let e := snd reached in
   exists c,
     performed (environment (session_call GET Sample.could_not_connect s e))
       = (performed e ++ [c])%list /\
     In content_type_header (CURLOPT_HTTPHEADER c) /\
     In (authorization_header "sk-test") (CURLOPT_HTTPHEADER c) /\
     (In (organization_header "org-1") (CURLOPT_HTTPHEADER c)
      <-> "org-1" <> "") /\
     ("org-1" = "" ->
      CURLOPT_HTTPHEADER c =
        [content_type_header; authorization_header "sk-test"]) /\
     ("org-1" <> "" ->
      CURLOPT_HTTPHEADER c =
        [content_type_header; authorization_header "sk-test";
         organization_header "org-1"])).
Proof.
  split; [reflexivity|].
  apply (headers_follow_setToken (Session.new false) quiet_env before_setting
           after_setting "sk-test" "org-1" GET Sample.could_not_connect).
  reflexivity.
Defined.

(** The requests of that session, in order: the one issued before the
    setting has an empty bearer token and no organization header, the one
    issued after it has both. *)
Example headers_before_and_after_setting :
  map CURLOPT_HTTPHEADER
      (performed
         (snd (session_after
                 (before_setting ++ s_setToken "sk-test" "org-1"
                                 :: after_setting)
                 (Session.new false) quiet_env)))
  = [["Content-Type: application/json"; "Authorization: Bearer "];
     ["Content-Type: application/json"; "Authorization: Bearer sk-test";
      "OpenAI-Organization: org-1"]].
Proof. reflexivity. Qed.

End Examples.

(** * Further properties of the header *)

(** ** Outcomes of [get] and [post] *)

Section OutcomeFacts.
Context {CL : CurlLib} {JL : JsonLib} {BF : BuildFlags}.

Ltac evaluate :=
  cbv beta iota delta
    [interpret OpenAI.trigger_error OpenAI.isJson OpenAI.parse
     OpenAI.checkResponse when bind catch gets throw ret to_cerr to_cout
     outcome object environment negb complained];
  cbn [fst snd text is_error error_message cerr cout performed].

Ltac by_cases :=
  repeat match goal with
         | |- context [match ?x with _ => _ end] =>
             lazymatch x with
             | context [match _ with _ => _ end] => fail
             | _ => destruct x eqn:?; evaluate
             end
         end.

(** X1.  The transfer succeeded and the text received parses to a value
    without an [error] member: [get]/[post] return that value and write
    nothing to [cerr], whatever the error mode. *)
Theorem successful_call_returns_parsed
    (v : Verb) (suffix data : string) (net : Transfer)
    (o : OpenAI.t) (e : Env) (j : Json) :
  result net = CURLE_OK ->
  Json_parse (received net) = Returned j ->
  Json_count j "error" = 0 ->
  outcome (facade v suffix data net o e) = Returned j /\
  cerr (environment (facade v suffix data net o e)) = cerr e.
Proof.
  intros Hok Hp Hc.
  rewrite (facade_after_transport _ _ _ _ _ _ _ _ _
             (transport_ok v suffix data net o e Hok)).
  evaluate. rewrite Hp. evaluate. rewrite Hc. evaluate.
  split; [reflexivity|]. unfold dispatched; cbn [cerr].
  apply announced_cerr.
Qed.

(** X2.  A facade constructed in soft mode and now in soft mode never
    raises from [get] or [post]: whatever was called on it before, whatever
    the transfer does and whatever text comes back, the call returns. *)
Theorem soft_facade_never_raises
    (token organization : string) (history : list Call) (e0 : Env)
    (v : Verb) (suffix data : string) (net : Transfer) :
  let o := fst (after history (OpenAI.new token organization false) e0) in
  let e := snd (after history (OpenAI.new token organization false) e0) in
  OpenAI.throw_exception_ o = false ->
  returns (facade v suffix data net o e).
Proof.
  intros o e Hfacade.
  pose proof (after_session_flag history
                (OpenAI.new token organization false) e0) as Hsession.
  fold o in Hsession. cbn in Hsession.
  assert (Hsoft : OpenAI.throw_exception_ (landed v suffix data net o)
                  = false) by exact Hfacade.
  rewrite facade_run, Hsession.
  destruct (Z.eqb (result net) CURLE_OK);
    apply interpret_soft; exact Hsoft.
Qed.

(** X3.  When [get] or [post] raises, the exception is one of two.  Either
    the transfer failed, one of the two flags is set, and the message is the
    transport's; or the transfer succeeded, the text parsed to a value with
    an [error] member, the facade's flag is set, and the message is the dump
    of that member.  Nothing else is ever thrown. *)
Theorem raised_exception_is_transport_or_api
    (v : Verb) (suffix data : string) (net : Transfer)
    (o : OpenAI.t) (e : Env) (w : string) :
  outcome (facade v suffix data net o e) = Raised w ->
  (result net <> CURLE_OK /\ w = failure_text net /\
   (Session.throw_exception_ (OpenAI.session_ o) = true \/
    OpenAI.throw_exception_ o = true))
  \/
  (result net = CURLE_OK /\ OpenAI.throw_exception_ o = true /\
   exists j, Json_parse (received net) = Returned j /\
             Json_count j "error" <> 0 /\ w = api_reason j).
Proof.
  rewrite facade_run.
  replace (OpenAI.throw_exception_ o)
    with (OpenAI.throw_exception_ (landed v suffix data net o))
    by reflexivity.
  generalize (landed v suffix data net o) as o1.
  generalize (dispatched v suffix data o e) as e1. intros e1 o1.
  destruct (Z.eqb_spec (result net) CURLE_OK) as [Hok|Hko].
  - evaluate. by_cases; intros Hw; try discriminate.
    right. split; [exact Hok|]. split; [first [assumption|reflexivity]|].
    injection Hw as <-.
    eexists; split; [reflexivity|]. split; [|reflexivity].
    apply Nat.eqb_neq; assumption.
  - destruct (Session.throw_exception_ (OpenAI.session_ o)) eqn:Hs.
    + intros Hw; injection Hw as <-. left. auto.
    + evaluate. by_cases; intros Hw; try discriminate;
        injection Hw as <-; left; auto.
Qed.

(** X4.  [set_throw_exception(true)] takes effect on any facade, however it
    was constructed: from then on a failed transfer, or an answer with an
    [error] member, makes [get]/[post] raise. *)
Theorem switch_to_hard_is_effective
    (o : OpenAI.t) (e0 e : Env)
    (v : Verb) (suffix data : string) (net : Transfer) :
  result net <> CURLE_OK \/
  (exists j, Json_parse (received net) = Returned j /\
             Json_count j "error" <> 0) ->
  raises (facade v suffix data net
                 (object (OpenAI.set_throw_exception true o e0)) e).
Proof.
  intros Herr. unfold raises. rewrite facade_run.
  set (o' := object (OpenAI.set_throw_exception true o e0)).
  assert (Hhard : OpenAI.throw_exception_ (landed v suffix data net o')
                  = true) by reflexivity.
  revert Hhard.
  generalize (landed v suffix data net o') as o1.
  generalize (dispatched v suffix data o' e) as e1. intros e1 o1 Hhard.
  destruct (Z.eqb_spec (result net) CURLE_OK) as [Hok|Hko].
  - destruct Herr as [Hne|(j & Hp & Hc)]; [contradiction|].
    rewrite (interpret_api_error_hard v
               (mkResponse (received net) false "") o1 e1 j Hp Hc Hhard).
    eexists; reflexivity.
  - destruct (Session.throw_exception_ (OpenAI.session_ o'));
      [eexists; reflexivity|].
    rewrite interpret_transport_error_hard by (reflexivity || exact Hhard).
    eexists; reflexivity.
Qed.

(** X5.  In soft mode (both flags clear) a failed transfer does not empty
    the result: the call returns whatever the text received so far parses
    to, and the null value only when that text is not JSON. *)
Theorem soft_transport_failure_result
    (v : Verb) (suffix data : string) (net : Transfer)
    (o : OpenAI.t) (e : Env) :
  flags o = (false, false) ->
  result net <> CURLE_OK ->
  outcome (facade v suffix data net o e)
  = Returned (parsed_or_null (received net)).
Proof.
  unfold flags. intros Hflags Hko. injection Hflags as Hfacade Hsession.
  apply Z.eqb_neq in Hko.
  rewrite facade_run, Hko, Hsession.
  assert (Hsoft : OpenAI.throw_exception_ (landed v suffix data net o)
                  = false) by exact Hfacade.
  revert Hsoft.
  generalize (landed v suffix data net o) as o1.
  generalize (dispatched v suffix data o e) as e1. intros e1 o1 Hsoft.
  unfold parsed_or_null. evaluate. rewrite Hsoft. evaluate.
  destruct (Json_parse (received net)) as [j|w'] eqn:Hp; evaluate.
  - by_cases; try discriminate; reflexivity.
  - by_cases; reflexivity.
Qed.

End OutcomeFacts.

(** ** What requests are made of, along a sequence of calls *)

Section RequestFacts.
Context {CL : CurlLib} {JL : JsonLib} {BF : BuildFlags}.

Lemma environment_then_ret {S A : Type} (m : M S A) (s : S) (e : Env) :
  environment ((m ;; ret tt) s e) = environment (m s e).
Proof.
  unfold bind, ret, environment; destruct (m s e) as [[[a|w] s'] e'];
    reflexivity.
Qed.

(** A request call of a history is one [get] or [post] of the facade. *)
Lemma request_is_facade (c : Call) :
  is_request c = true ->
  exists v suffix data net,
    forall o e, run_call c o e = (facade v suffix data net ;; ret tt) o e.
Proof.
  destruct c as [url|url|b|suffix data net|suffix data net|op net];
    simpl; intros Hc; try discriminate.
  - exists GET, suffix, data, net; reflexivity.
  - exists POST, suffix, data, net; reflexivity.
  - destruct (invoke_facade op) as (v & data & Hop).
    exists v, (fill (path_parameter op) (spec_template op)), data, net.
    intros o e. rewrite Hop. reflexivity.
Qed.

Lemma run_call_base_url (c : Call) (o : OpenAI.t) (e : Env) :
  OpenAI.base_url (object (run_call c o e)) =
  last_base_url [c] (OpenAI.base_url o).
Proof.
  destruct (is_request c) eqn:Hreq.
  - destruct (request_is_facade c Hreq) as (v & suffix & data & net & Hrun).
    rewrite Hrun, object_then_ret, facade_object.
    destruct c; try discriminate; reflexivity.
  - destruct c; try discriminate; reflexivity.
Qed.

Lemma after_base_url (history : list Call) (o : OpenAI.t) (e : Env) :
  OpenAI.base_url (fst (after history o e)) =
  last_base_url history (OpenAI.base_url o).
Proof.
  revert o e; induction history as [|c rest IH]; intros o e;
    cbn [after]; [reflexivity|].
  pose proof (run_call_base_url c o e) as Hstep.
  destruct (run_call c o e) as [[r o'] e']; unfold object in Hstep;
    cbn [fst snd] in Hstep.
  rewrite IH, Hstep. reflexivity.
Qed.

(** X6.  The base URL of a facade is the argument of the last [setBaseUrl]
    called on it, and [https://api.openai.com/v1/] when there was none:
    this is what [getBaseUrl] returns and what the next request's URL
    begins with.  Requests, answers and exceptions in between do not change
    it. *)
Theorem base_url_is_last_set
    (token organization : string) (b : bool) (history : list Call)
    (e0 : Env) (v : Verb) (suffix data : string) (net : Transfer) :
  let o := fst (after history (OpenAI.new token organization b) e0) in
  let e := snd (after history (OpenAI.new token organization b) e0) in
  let base := last_base_url history "https://api.openai.com/v1/" in
  outcome (OpenAI.getBaseUrl o e) = Returned base /\
  exists c,
    performed (environment (facade v suffix data net o e))
      = (performed e ++ [c])%list /\
    CURLOPT_URL c = Some (base ++ suffix).
Proof.
  intros o e base.
  pose proof (after_base_url history (OpenAI.new token organization b) e0)
    as Hbase.
  fold o in Hbase. change (OpenAI.base_url o = base) in Hbase.
  split.
  - unfold OpenAI.getBaseUrl, gets, outcome; cbn [fst]. now rewrite Hbase.
  - rewrite facade_performed. eexists; split; [reflexivity|].
    cbn. now rewrite Hbase.
Qed.

Lemma run_call_proxy (c : Call) (o : OpenAI.t) (e : Env) :
  proxy_of (object (run_call c o e)) = last_proxy [c] (proxy_of o).
Proof.
  destruct (is_request c) eqn:Hreq.
  - destruct (request_is_facade c Hreq) as (v & suffix & data & net & Hrun).
    rewrite Hrun, object_then_ret, facade_object.
    destruct c; try discriminate; reflexivity.
  - destruct c; try discriminate; reflexivity.
Qed.

Lemma after_proxy (history : list Call) (o : OpenAI.t) (e : Env) :
  proxy_of (fst (after history o e)) = last_proxy history (proxy_of o).
Proof.
  revert o e; induction history as [|c rest IH]; intros o e;
    cbn [after]; [reflexivity|].
  pose proof (run_call_proxy c o e) as Hstep.
  destruct (run_call c o e) as [[r o'] e']; unfold object in Hstep;
    cbn [fst snd] in Hstep.
  rewrite IH, Hstep. reflexivity.
Qed.

(** X7.  Every request of a facade goes through the proxy given to the last
    [set_proxy] called on it, and through none when [set_proxy] was never
    called; the setting outlives the requests made in between, whether they
    returned or raised. *)
Theorem proxy_is_last_set
    (token organization : string) (b : bool) (history : list Call)
    (e0 : Env) (v : Verb) (suffix data : string) (net : Transfer) :
  let o := fst (after history (OpenAI.new token organization b) e0) in
  let e := snd (after history (OpenAI.new token organization b) e0) in
  exists c,
    performed (environment (facade v suffix data net o e))
      = (performed e ++ [c])%list /\
    CURLOPT_PROXY c = last_proxy history None.
Proof.
  intros o e.
  pose proof (after_proxy history (OpenAI.new token organization b) e0)
    as Hproxy.
  fold o in Hproxy. change (proxy_of o = last_proxy history None) in Hproxy.
  rewrite facade_performed. eexists; split; [reflexivity|].
  exact Hproxy.
Qed.

(** X8.  The operations that take a JSON input ([create], [edit],
    [variation], [upload]) are performed as POST with the compact dump of
    the input as body; all others ([list], [retrieve], [content], [cancel],
    [events]) are performed as GET, with the empty string left in the body
    option.  This does not depend on what the session did before. *)
Theorem category_method_and_body (op : Operation) (net : Transfer)
    (o : OpenAI.t) (e : Env) :
  exists c,
    performed (environment (invoke op net o e)) = (performed e ++ [c])%list /\
    match input_of op with
    | Some input =>
        http_method c = HTTP_POST /\
        CURLOPT_POSTFIELDS c = Some (Json_dump input (-1))
    | None =>
        http_method c = HTTP_GET /\ CURLOPT_POSTFIELDS c = Some ""
    end.
Proof.
  destruct op; cbn [invoke input_of];
    unfold CategoryModel_list, CategoryModel_retrieve,
      CategoryCompletion_create, CategoryEdit_create, CategoryImage_create,
      CategoryImage_edit, CategoryImage_variation, CategoryEmbedding_create,
      CategoryFile_list, CategoryFile_upload, CategoryFile_retrieve,
      CategoryFile_content, CategoryFineTune_create, CategoryFineTune_list,
      CategoryFineTune_retrieve, CategoryFineTune_content,
      CategoryFineTune_cancel, CategoryFineTune_events,
      CategoryModeration_create, OpenAI.post_json;
    match goal with
    | |- context [OpenAI.get ?s ?d ?n ?o ?e] =>
        change (OpenAI.get s d n o e) with (facade GET s d n o e)
    | |- context [OpenAI.post ?s ?d ?n ?o ?e] =>
        change (OpenAI.post s d n o e) with (facade POST s d n o e)
    end;
    rewrite facade_performed; eexists; (split; [reflexivity|]);
    split; reflexivity.
Qed.

Lemma run_call_transfers (c : Call) (o : OpenAI.t) (e : Env) :
  length (performed (environment (run_call c o e))) =
  length (performed e) + (if is_request c then 1 else 0).
Proof.
  destruct (is_request c) eqn:Hreq.
  - destruct (request_is_facade c Hreq) as (v & suffix & data & net & Hrun).
    rewrite Hrun, environment_then_ret, facade_performed.
    rewrite length_app. reflexivity.
  - destruct c; try discriminate; cbn; lia.
Qed.

(** X9.  One transfer per request, no more and no less: after any sequence
    of calls the number of transfers performed has grown by the number of
    [get], [post] and wrapper calls in it.  A call that raises has performed
    its transfer; no call retries, and the configuration calls perform
    none. *)
Theorem one_transfer_per_request (history : list Call) (o : OpenAI.t)
    (e : Env) :
  length (performed (snd (after history o e))) =
  length (performed e) + length (filter is_request history).
Proof.
  revert o e; induction history as [|c rest IH]; intros o e;
    cbn [after filter]; [cbn; lia|].
  pose proof (run_call_transfers c o e) as Hstep.
  destruct (run_call c o e) as [[r o'] e']; unfold environment in Hstep;
    cbn [snd] in Hstep.
  rewrite IH, Hstep. destruct (is_request c); cbn [length]; lia.
Qed.

(** X10.  [debug()] writes to [cout] the token the facade was constructed
    with, followed by a newline, whatever was called on the facade in
    between; it changes nothing else. *)
Theorem debug_prints_the_token
    (token organization : string) (b : bool) (history : list Call)
    (e0 : Env) :
  let o := fst (after history (OpenAI.new token organization b) e0) in
  let e := snd (after history (OpenAI.new token organization b) e0) in
  OpenAI.debug o e =
  (Returned tt, o, mkEnv (cerr e) (cout e ++ [token ++ nl]) (performed e)).
Proof.
  intros o e.
  pose proof (after_credentials history (OpenAI.new token organization b) e0)
    as Hid.
  fold o in Hid. unfold credentials in Hid. cbn in Hid.
  injection Hid as Htoken _ _ _.
  unfold OpenAI.debug, bind, gets, to_cout. now rewrite Htoken.
Qed.

End RequestFacts.

(** ** The session used directly *)

Section SessionContract.
Context {CL : CurlLib}.

Lemma session_call_run (v : Verb) (net : Transfer) (s : Session.t)
    (e : Env) :
  session_call v net s e =
  Session.makeRequest net
    (match v with
     | GET => Session.with_curl setopt_HTTPGET s
     | POST => s
     end) e.
Proof. destruct v; reflexivity. Qed.

(** X11.  The [Response] a session returns holds the bytes received as its
    text; [is_error] is set exactly when [curl_easy_perform] did not return
    [CURLE_OK]; and [error_message] is then the transport's message, and
    empty otherwise. *)
Theorem session_response_contract (v : Verb) (net : Transfer)
    (s : Session.t) (e : Env) (r : Response) :
  outcome (session_call v net s e) = Returned r ->
  text r = received net /\
  (is_error r = true <-> result net <> CURLE_OK) /\
  error_message r = (if is_error r then failure_text net else "").
Proof.
  rewrite session_call_run, makeRequest_run.
  destruct (Z.eqb_spec (result net) CURLE_OK) as [Hok|Hko].
  - intros Hr; injection Hr as <-. cbn.
    repeat split; try reflexivity; [discriminate | contradiction].
  - match goal with
    | |- context [if ?flag then _ else _] => destruct flag
    end; intros Hr; [discriminate|]. injection Hr as <-. cbn.
    repeat split; auto.
Qed.

(** X12.  A session raises from [get()] or [post()] exactly when the
    transfer failed and the session was constructed with
    [throw_exception]; the message is then the transport's.  In particular
    a session constructed without it never raises. *)
Theorem session_raises_iff (v : Verb) (net : Transfer) (s : Session.t)
    (e : Env) (w : string) :
  outcome (session_call v net s e) = Raised w <->
  (result net <> CURLE_OK /\ Session.throw_exception_ s = true /\
   w = failure_text net).
Proof.
  rewrite session_call_run, makeRequest_run.
  replace (Session.throw_exception_
             (match v with
              | GET => Session.with_curl setopt_HTTPGET s
              | POST => s
              end))
    with (Session.throw_exception_ s) by (destruct v; reflexivity).
  destruct (Z.eqb_spec (result net) CURLE_OK) as [Hok|Hko];
    [| destruct (Session.throw_exception_ s) ]; cbn; split.
  - discriminate.
  - intros (Hko & _); contradiction.
  - intros Hw; injection Hw as <-; auto.
  - intros (_ & _ & ->); reflexivity.
  - discriminate.
  - intros (_ & Hf & _); discriminate.
Qed.

(** X13.  [Session::post()] sets no request method.  Called right after a
    [get()], it is performed as a GET; it is performed as a POST, with
    [data] as body, once [setBody(data)] has been called after that
    [get()]. *)
Theorem session_post_keeps_method (net1 net2 : Transfer) (data : string)
    (s : Session.t) (e : Env) :
  let first := Session.get net1 s e in
  let direct := Session.post net2 (object first) (environment first) in
  let with_body :=
    (Session.setBody data ;; Session.post net2)
      (object first) (environment first) in
  (exists c,
     performed (environment direct)
       = (performed (environment first) ++ [c])%list /\
     http_method c = HTTP_GET) /\
  (exists c,
     performed (environment with_body)
       = (performed (environment first) ++ [c])%list /\
     http_method c = HTTP_POST /\ CURLOPT_POSTFIELDS c = Some data).
Proof.
  intros first direct with_body.
  assert (Hfirst : http_method (Session.curl_ (object first)) = HTTP_GET).
  { subst first. unfold Session.get, bind at 1, modify.
    rewrite makeRequest_run.
    destruct (Z.eqb (result net1) CURLE_OK);
      [| destruct (Session.throw_exception_ _) ]; reflexivity. }
  split.
  - subst direct.
    pose proof (session_call_performed POST net2 (object first)
                  (environment first)) as Hsent.
    cbn [session_call] in Hsent. rewrite Hsent. eexists.
    split; [reflexivity|]. exact Hfirst.
  - subst with_body.
    pose proof (session_call_performed POST net2
                  (Session.with_curl (setopt_POSTFIELDS data) (object first))
                  (environment first)) as Hsent.
    cbn [session_call] in Hsent.
    unfold Session.setBody, modify. unfold bind at 1.
    rewrite Hsent. eexists.
    split; [reflexivity|]. split; reflexivity.
Qed.

End SessionContract.

(** ** The free functions *)

Section FreeFunctionFacts.
Context {CL : CurlLib} {JL : JsonLib} {BF : BuildFlags}.

Lemma environment_of {S A : Type} (r : Outcome A) (s : S) (e : Env) :
  environment (r, s, e) = e.
Proof. reflexivity. Qed.

(** X14.  Used before any [configure], the free [get], the free [post] and
    the category helpers send their request to
    [https://api.openai.com/v1/] with an empty bearer token: the header
    list is [Content-Type: application/json] and [Authorization: Bearer ]
    with nothing after it, and there is no organization header. *)
Theorem unconfigured_requests_have_empty_token
    (suffix : string) (json : Json) (op : Operation) (net : Transfer)
    (e : Env) :
  let anonymous :=
    [content_type_header; authorization_header ""] in
  (exists c,
     performed (environment (get suffix net program_start e))
       = (performed e ++ [c])%list /\
     CURLOPT_HTTPHEADER c = anonymous /\
     CURLOPT_URL c = Some ("https://api.openai.com/v1/" ++ suffix)) /\
  (exists c,
     performed (environment (post suffix json net program_start e))
       = (performed e ++ [c])%list /\
     CURLOPT_HTTPHEADER c = anonymous /\
     CURLOPT_URL c = Some ("https://api.openai.com/v1/" ++ suffix)) /\
  (exists c,
     performed (environment (category op net program_start e))
       = (performed e ++ [c])%list /\
     CURLOPT_HTTPHEADER c = anonymous /\
     CURLOPT_URL c = Some (spec_url "https://api.openai.com/v1/" op)).
Proof.
  intros anonymous. unfold get, post, category, instance.
  rewrite !configure_run, !environment_of.
  change (designated "" "" true program_start)
    with (OpenAI.new "" "" true).
  destruct (invoke_facade op) as (v & data & Hop). rewrite Hop.
  change (OpenAI.get suffix "" net) with (facade GET suffix "" net).
  change (OpenAI.post_json suffix json net)
    with (facade POST suffix (Json_dump json (-1)) net).
  rewrite !facade_performed.
  repeat split; eexists; (split; [reflexivity|]); split; reflexivity.
Qed.

(** X15.  After [configure(token, organization, throw_exception)] as the
    first use of the singleton, the free [get] is the [get] of a facade
    constructed from these arguments: same outcome, same output, and a
    request that carries this token and organization. *)
Theorem configured_get_uses_configuration
    (token organization : string) (b : bool)
    (suffix : string) (net : Transfer) (e : Env) :
  let configured := configure token organization b (ret tt) program_start e in
  let st1 := object configured in
  let e1 := environment configured in
  let direct := OpenAI.get suffix "" net (OpenAI.new token organization b) e in
  e1 = e /\
  get suffix net st1 e1 =
    (outcome direct, mkStatics (Some (object direct)), environment direct) /\
  exists c,
    performed (environment (get suffix net st1 e1))
      = (performed e ++ [c])%list /\
    CURLOPT_HTTPHEADER c =
      ([content_type_header; authorization_header token]
       ++ if empty organization then []
          else [organization_header organization])%list.
Proof.
  cbv zeta.
  rewrite (configure_run token organization b (ret tt) program_start e).
  cbn [object environment outcome fst snd ret].
  change (designated token organization b program_start)
    with (OpenAI.new token organization b).
  split; [reflexivity|].
  unfold get, instance. rewrite configure_run.
  change (designated "" "" true
            (mkStatics (Some (OpenAI.new token organization b))))
    with (OpenAI.new token organization b).
  split; [reflexivity|].
  rewrite environment_of.
  change (OpenAI.get suffix "" net) with (facade GET suffix "" net).
  rewrite facade_performed.
  eexists; split; [reflexivity|].
  destruct organization; reflexivity.
Qed.

End FreeFunctionFacts.

(** ** More on the mutex *)

Module MutexFacts.
Import Concurrent.

Lemma nth_error_update_alive {A : Type} (l : list A) (n h : nat) (a x : A) :
  nth_error l n = Some x ->
  (exists p, nth_error l h = Some p) ->
  exists p, nth_error (update n a l) h = Some p.
Proof.
  intros Hn [p Hp]. destruct (Nat.eq_dec n h) as [<-|Hne].
  - exists a. eapply ConcurrentFacts.nth_error_update_same; eassumption.
  - exists p. rewrite ConcurrentFacts.nth_error_update_other; assumption.
Qed.

Lemma step_alive t st st' :
  holder_alive st -> step t st = Some st' -> holder_alive st'.
Proof.
  intros Alive Hstep. unfold step in Hstep.
  destruct (nth_error (threads st) t) as [[|i rest]|] eqn:Ht;
    try discriminate.
  destruct i; try (destruct (mutex_request_ st) eqn:Hm; [discriminate|]);
    injection Hstep as <-; intros h Hh; cbn in Hh |- *;
    try discriminate;
    eapply nth_error_update_alive; try eassumption.
  all: try (apply Alive; assumption).
  injection Hh as <-. eexists; eassumption.
Qed.

Lemma run_alive schedule st :
  holder_alive st -> holder_alive (run schedule st).
Proof.
  revert st; induction schedule as [|t rest IH]; intros st Alive; simpl;
    [exact Alive|].
  destruct (step t st) as [st'|] eqn:Hstep; apply IH;
    [eapply step_alive; eassumption | exact Alive].
Qed.

Lemma start_alive s base calls : holder_alive (start s base calls).
Proof. intros h Hh; discriminate Hh. Qed.

(** The holder's next step is one of [makeRequest] under the lock. *)
Lemma holder_executing st h :
  lock_invariant st -> holder_alive st ->
  mutex_request_ st = Some h -> executing st h = true.
Proof.
  intros Inv Alive Hm. destruct (Alive h Hm) as [p Hp].
  pose proof (Inv h p Hp) as Hb. unfold holds in Hb. rewrite Hm in Hb.
  cbn in Hb. rewrite Nat.eqb_refl in Hb.
  unfold executing. rewrite Hp.
  destruct p as [|[] rest]; cbn in Hb; try discriminate; reflexivity.
Qed.

(** X16.  The mutex is held only inside [makeRequest]: whenever a thread
    holds it, that thread's next step is one of the locked body (the
    options, the transfer, or the release).  No thread keeps the mutex
    after its call, and none takes it to run [setUrl] or [setBody]. *)
Theorem mutex_held_only_in_makeRequest (s : Session.t) (base : string)
    (calls : list (list Request)) (schedule : list nat) (h : nat) :
  let st := run schedule (start s base calls) in
  mutex_request_ st = Some h -> executing st h = true.
Proof.
  intros st Hm. apply holder_executing; [| |exact Hm].
  - apply ConcurrentFacts.run_invariant, ConcurrentFacts.start_invariant.
  - apply run_alive, start_alive.
Qed.

(** X17.  No deadlock: in every state the threads can reach, if some
    thread still has steps to do then some thread can take a step. *)
Theorem no_deadlock (s : Session.t) (base : string)
    (calls : list (list Request)) (schedule : list nat) :
  let st := run schedule (start s base calls) in
  unfinished st -> exists t st', step t st = Some st'.
Proof.
  intros st (t & i & rest & Ht).
  destruct (mutex_request_ st) as [h|] eqn:Hm.
  - assert (Hex : executing st h = true).
    { apply holder_executing; [| |exact Hm].
      - apply ConcurrentFacts.run_invariant, ConcurrentFacts.start_invariant.
      - apply run_alive, start_alive. }
    exists h. unfold executing in Hex. unfold step.
    destruct (nth_error (threads st) h) as [[|[] more]|];
      try discriminate; eexists; reflexivity.
  - exists t. unfold step. rewrite Ht.
    destruct i; try rewrite Hm; eexists; reflexivity.
Qed.

End MutexFacts.

(** ** The further properties at concrete inputs *)

Module MoreExamples.
Import Concurrent.
Import Scenario.

#[local] Existing Instance Sample.curl.
#[local] Existing Instance Sample.json.
#[local] Existing Instance Sample.quiet.

Lemma successful_call_returns_parsed_witness :
  result (Sample.answered "{}") = CURLE_OK /\
  Json_parse (received (Sample.answered "{}")) = Returned empty_object /\
  Json_count empty_object "error" = 0 /\
  outcome (facade GET "models" "" (Sample.answered "{}") shared quiet_env)
    = Returned empty_object /\
  cerr (environment
          (facade GET "models" "" (Sample.answered "{}") shared quiet_env))
    = cerr quiet_env.
Proof.
  split; [reflexivity|]. split; [reflexivity|]. split; [reflexivity|].
  apply (successful_call_returns_parsed GET "models" ""
           (Sample.answered "{}") shared quiet_env empty_object);
    reflexivity.
Defined.

Lemma soft_facade_never_raises_witness :
  OpenAI.throw_exception_
    (fst (after earlier_calls (OpenAI.new "sk-test" "org-1" false)
                quiet_env)) = false /\
  returns
    (facade GET "models" "" error_answer
       (fst (after earlier_calls (OpenAI.new "sk-test" "org-1" false)
                   quiet_env))
       (snd (after earlier_calls (OpenAI.new "sk-test" "org-1" false)
                   quiet_env))).
Proof.
  split; [reflexivity|].
  apply (soft_facade_never_raises "sk-test" "org-1" earlier_calls quiet_env
           GET "models" "" error_answer); reflexivity.
Defined.

Lemma raised_exception_is_transport_or_api_witness :
  outcome (facade GET "models" "" error_answer shared quiet_env)
    = Raised (api_reason error_payload) /\
  ((result error_answer <> CURLE_OK /\
    api_reason error_payload = failure_text error_answer /\
    (Session.throw_exception_ (OpenAI.session_ shared) = true \/
     OpenAI.throw_exception_ shared = true))
   \/
   (result error_answer = CURLE_OK /\
    OpenAI.throw_exception_ shared = true /\
    exists j, Json_parse (received error_answer) = Returned j /\
              Json_count j "error" <> 0 /\
              api_reason error_payload = api_reason j)).
Proof.
  split; [reflexivity|].
  apply (raised_exception_is_transport_or_api GET "models" "" error_answer
           shared quiet_env (api_reason error_payload)); reflexivity.
Defined.

Lemma switch_to_hard_is_effective_witness :
  (result Sample.could_not_connect <> CURLE_OK \/
   (exists j, Json_parse (received Sample.could_not_connect) = Returned j /\
              Json_count j "error" <> 0)) /\
  raises (facade POST "completions" "{}" Sample.could_not_connect
                 (object (OpenAI.set_throw_exception true soft_client
                            quiet_env))
                 quiet_env).
Proof.
  split; [left; discriminate|].
  apply (switch_to_hard_is_effective soft_client quiet_env quiet_env POST
           "completions" "{}" Sample.could_not_connect).
  left; discriminate.
Defined.

Lemma soft_transport_failure_result_witness :
  flags soft_client = (false, false) /\
  result cut_short <> CURLE_OK /\
  outcome (facade GET "models" "" cut_short soft_client quiet_env)
    = Returned (parsed_or_null (received cut_short)).
Proof.
  split; [reflexivity|]. split; [discriminate|].
  apply (soft_transport_failure_result GET "models" "" cut_short soft_client
           quiet_env); [reflexivity | discriminate].
Defined.

Lemma session_response_contract_witness :
  outcome (session_call GET cut_short (OpenAI.session_ soft_client)
                        quiet_env)
    = Returned (mkResponse "{}" true (failure_text cut_short)) /\
  (text (mkResponse "{}" true (failure_text cut_short)) = received cut_short
   /\
   (is_error (mkResponse "{}" true (failure_text cut_short)) = true
    <-> result cut_short <> CURLE_OK) /\
   error_message (mkResponse "{}" true (failure_text cut_short))
     = (if is_error (mkResponse "{}" true (failure_text cut_short))
        then failure_text cut_short else "")).
Proof.
  split; [reflexivity|].
  apply (session_response_contract GET cut_short
           (OpenAI.session_ soft_client) quiet_env
           (mkResponse "{}" true (failure_text cut_short))).
  reflexivity.
Defined.

Lemma mutex_held_only_in_makeRequest_witness :
  mutex_request_ thread0_inside = Some 0 /\
  executing thread0_inside 0 = true.
Proof.
  split; [reflexivity|].
  apply (MutexFacts.mutex_held_only_in_makeRequest (OpenAI.session_ shared)
           (OpenAI.base_url shared) two_callers [0; 0; 0; 1; 0] 0).
  reflexivity.
Defined.

Lemma no_deadlock_witness :
  unfinished thread0_inside /\
  exists t st', step t thread0_inside = Some st'.
Proof.
  split; [exists 1; eexists; eexists; reflexivity|].
  apply (MutexFacts.no_deadlock (OpenAI.session_ shared)
           (OpenAI.base_url shared) two_callers [0; 0; 0; 1; 0]).
  exists 1; eexists; eexists; reflexivity.
Defined.

End MoreExamples.
